(** * voicememo-ssh-server: the session manager and the WebSocket bridge

    A shallow embedding of [src/types.ts], [src/ssh-manager.ts] and
    [src/index.ts].

    The repository holds two revisions of the server.  The file
    [src/index.ts] (207 lines) is the original bridge.  The file
    [src/ssh-manager.ts] holds, one after the other: the manager with its
    debugging listeners (lines 1-146), the plain manager (lines 146-259)
    and the revised bridge (lines 259-536).  The two managers differ only
    in what they print; the two bridges differ in the [connected]
    response, in the shell [close] handler and in the shell [error]
    handler.  Definitions that differ take the revision as a parameter;
    the manager with the debugging listeners is taken with the revised
    bridge, the plain manager with the original one.

    Modelling conventions.
    - The SSH provider (node-ssh / ssh2) is outside the program.  A
      [NodeSSH] object and a shell channel carry, as fields, what each of
      their operations will do when called (return or throw); every call
      made on them is recorded in [calls].
    - [console.error] lines are recorded in [console]; [console.log] and
      [console.warn] lines are not (nothing reads them back).
    - A handler (an [async] function) is run from its start to its end
      without another event in between.
    - [JSON.parse] and [generateSessionId] are inputs of the message
      handler: the parsed frame and the identifier that was drawn. *)

From stdpp Require Import base option list strings gmap.
From Stdlib Require Import ZArith.

Local Open Scope Z_scope.
Local Open Scope string_scope.
Local Open Scope list_scope.

(** ** JavaScript values thrown and caught *)

(** What a [catch (error)] clause or an [error] listener receives: an
    [Error] object with its [message]; [null] or [undefined]
    ([Nullish false] and [Nullish true]); or some other value that is not
    an [Error] and has no [message] property. *)
Inductive Thrown : Type :=
  | ErrorObj (message : string)
  | NonError
  | Nullish (undef : bool).

(** [error instanceof Error ? error.message : dflt] *)
Definition message_or (error : Thrown) (dflt : string) : string :=
  match error with
  | ErrorObj m => m
  | NonError => dflt
  | Nullish _ => dflt
  end.

(** The [TypeError] that reading property [prop] of [null] or of
    [undefined] throws. *)
Definition type_error (undef : bool) (prop : string) : Thrown :=
  ErrorObj ("Cannot read properties of "
            +:+ (if undef then "undefined" else "null")
            +:+ " (reading '" +:+ prop +:+ "')").

(** [n || dflt] on an optional number: zero and [undefined] are falsy. *)
Definition num_or (v : option Z) (dflt : Z) : Z :=
  match v with
  | Some n => if Z.eqb n 0 then dflt else n
  | None => dflt
  end.

(** Template interpolation of a [string | null]. *)
Definition show_id (v : option string) : string :=
  match v with
  | Some s => s
  | None => "null"
  end.

(** ** types.ts *)

Record SSHConnectionConfig : Type := {
  host : string;
  port : Z;
  username : string;
  password : option string;
  privateKey : option string;
  passphrase : option string;
}.

(** A parsed client message.  A field that is missing is [None]; [mtype]
    is [None] when the [type] field is missing or is not a string. *)
Record SSHMessage : Type := {
  mtype : option string;
  config : option SSHConnectionConfig;
  command : option string;
  cols : option Z;
  rows : option Z;
}.

Inductive ResponseType : Type := connected | data | error | disconnected.

(** [SSHResponse]: the object given to [JSON.stringify].  A property
    that is not set is [None]. *)
Record SSHResponse : Type := {
  rtype : ResponseType;
  rdata : option string;
  rerror : option string;
  rsessionId : option string;
}.

Definition resp_connected_plain : SSHResponse :=
  {| rtype := connected; rdata := None; rerror := None; rsessionId := None |}.
Definition resp_connected_id (sid : option string) : SSHResponse :=
  {| rtype := connected; rdata := None; rerror := None; rsessionId := sid |}.
Definition resp_data (d : string) : SSHResponse :=
  {| rtype := data; rdata := Some d; rerror := None; rsessionId := None |}.
Definition resp_error (e : string) : SSHResponse :=
  {| rtype := error; rdata := None; rerror := Some e; rsessionId := None |}.
Definition resp_disconnected : SSHResponse :=
  {| rtype := disconnected; rdata := None; rerror := None; rsessionId := None |}.

Definition is_disconnected (r : SSHResponse) : bool :=
  match rtype r with disconnected => true | _ => false end.
Definition is_error (r : SSHResponse) : bool :=
  match rtype r with error => true | _ => false end.

(** ** The provider's objects *)

(** A shell channel ([ClientChannel] of ssh2).  [end_throws],
    [setWindow_throws] and [write_throws] say what the method does when
    it is called. *)
Record Channel : Type := {
  chan : nat;
  end_throws : option Thrown;
  setWindow_throws : option Thrown;
  write_throws : option Thrown;
}.

(** A [NodeSSH] object.  [connect_throws] is the rejection of
    [ssh.connect], [requestShell_result] the outcome of
    [ssh.requestShell], [dispose_throws] what [ssh.dispose] does. *)
Record NodeSSH : Type := {
  conn : nat;
  connect_throws : option Thrown;
  requestShell_result : Thrown + Channel;
  dispose_throws : option Thrown;
}.

Record SSHSession : Type := {
  id : string;
  connection : NodeSSH;
  shell : option Channel;
  isConnected : bool;
}.

(** Calls made on the provider's objects, in the order they are made. *)
Inductive Call : Type :=
  | CConnect (c : nat) (cfg : SSHConnectionConfig)
  | CRequestShell (c : nat) (cols rows : Z)
  | CSetWindow (ch : nat) (rows cols : Z)
  | CWrite (ch : nat) (text : string)
  | CEnd (ch : nat)
  | CDispose (c : nat).

(** [ws.readyState] *)
Inductive ReadyState : Type := CONNECTING | OPEN | CLOSING | CLOSED.

Definition is_open (r : ReadyState) : bool :=
  match r with OPEN => true | _ => false end.

(** ** The state of the process, seen from one WebSocket connection *)

Record State : Type := {
  sessions : gmap string SSHSession;      (* SSHManager.sessions *)
  sessionId : option string;              (* let sessionId: string | null *)
  readyState : ReadyState;                (* ws.readyState *)
  wire : list SSHResponse;                (* frames given to ws.send *)
  calls : list Call;                      (* calls on the provider's objects *)
  console : list (string * Thrown);       (* console.error(label, error) *)
}.

Definition set_sessions (f : gmap string SSHSession -> gmap string SSHSession)
    (st : State) : State :=
  {| sessions := f (sessions st); sessionId := sessionId st;
     readyState := readyState st; wire := wire st; calls := calls st;
     console := console st |}.

Definition set_sessionId (v : option string) (st : State) : State :=
  {| sessions := sessions st; sessionId := v;
     readyState := readyState st; wire := wire st; calls := calls st;
     console := console st |}.

Definition add_wire (r : SSHResponse) (st : State) : State :=
  {| sessions := sessions st; sessionId := sessionId st;
     readyState := readyState st; wire := wire st ++ [r]; calls := calls st;
     console := console st |}.

Definition add_call (c : Call) (st : State) : State :=
  {| sessions := sessions st; sessionId := sessionId st;
     readyState := readyState st; wire := wire st; calls := calls st ++ [c];
     console := console st |}.

Definition add_console (label : string) (e : Thrown) (st : State) : State :=
  {| sessions := sessions st; sessionId := sessionId st;
     readyState := readyState st; wire := wire st; calls := calls st;
     console := console st ++ [(label, e)] |}.

(** ** Computations that change the state and may throw *)

Inductive Outcome (A : Type) : Type :=
  | Returned (a : A)
  | Raised (e : Thrown).
Arguments Returned {A} a.
Arguments Raised {A} e.

Definition M (A : Type) : Type := State -> Outcome A * State.

Definition ret {A} (a : A) : M A := fun st => (Returned a, st).

Definition bind {A B} (m : M A) (k : A -> M B) : M B :=
  fun st =>
    match m st with
    | (Returned a, st') => k a st'
    | (Raised e, st') => (Raised e, st')
    end.

Definition throw {A} (e : Thrown) : M A := fun st => (Raised e, st).

(** [try { body } catch (error) { handler }] *)
Definition try_catch {A} (body : M A) (handler : Thrown -> M A) : M A :=
  fun st =>
    match body st with
    | (Returned a, st') => (Returned a, st')
    | (Raised e, st') => handler e st'
    end.

(** [try { body } finally { final }] *)
Definition try_finally {A} (body : M A) (final : M unit) : M A :=
  fun st =>
    match body st with
    | (r, st') =>
        match final st' with
        | (Returned _, st'') => (r, st'')
        | (Raised e, st'') => (Raised e, st'')
        end
    end.

Definition get {A} (f : State -> A) : M A := fun st => (Returned (f st), st).
Definition modify (f : State -> State) : M unit := fun st => (Returned tt, f st).

(** A method of a provider object: the call is recorded, then it returns
    or throws as the object says. *)
Definition invoke (c : Call) (throws : option Thrown) : M unit :=
  fun st =>
    match throws with
    | None => (Returned tt, add_call c st)
    | Some e => (Raised e, add_call c st)
    end.

Definition console_error (label : string) (e : Thrown) : M unit :=
  modify (add_console label e).

Declare Scope js_scope.
Delimit Scope js_scope with js.
Notation "'let*' x := c 'in' k" := (bind c (fun x => k))
  (at level 10, x name, c at level 100, k at level 200, only parsing) : js_scope.
Notation "c ;; k" := (bind c (fun _ => k))
  (at level 100, k at level 200, right associativity, only parsing) : js_scope.
Local Open Scope js_scope.

(** The state a computation leaves, and what it returned or threw. *)
Definition exec {A} (m : M A) (st : State) : State := snd (m st).
Definition outcome {A} (m : M A) (st : State) : Outcome A := fst (m st).

(** Truthiness of a [string | null | undefined]: [null], [undefined] and
    the empty string are falsy.  The result is the string when it is
    truthy. *)
Definition truthy (v : option string) : option string :=
  match v with
  | Some s => if String.eqb s EmptyString then None else Some s
  | None => None
  end.

(** The two revisions of the server held by the repository. *)
Inductive Revision : Type := Original | Revised.

(** ** ssh-manager.ts: class SSHManager *)

Definition sessions_get (sessionId : string) : M (option SSHSession) :=
  get (fun st => sessions st !! sessionId).

Definition with_shell (sh : Channel) (s : SSHSession) : SSHSession :=
  {| id := id s; connection := connection s; shell := Some sh;
     isConnected := isConnected s |}.

Definition with_isConnected (b : bool) (s : SSHSession) : SSHSession :=
  {| id := id s; connection := connection s; shell := shell s;
     isConnected := b |}.

(** [ssh.connect({host, port: config.port || 22, ...})] *)
Definition connect_options (cfg : SSHConnectionConfig) : SSHConnectionConfig :=
  {| host := host cfg; port := num_or (Some (port cfg)) 22;
     username := username cfg; password := password cfg;
     privateKey := privateKey cfg; passphrase := passphrase cfg |}.

(** [createSession] (lines 7-53 and 152-179).  [ssh] is the object
    [new NodeSSH()] gives.  The listeners set on [ssh.connection] only
    print, and [ssh.connection] is still null where they are set. *)
Definition createSession (sessionId : string) (cfg : SSHConnectionConfig)
    (ssh : NodeSSH) : M SSHSession :=
  try_catch
    (invoke (CConnect (conn ssh) (connect_options cfg)) (connect_throws ssh) ;;
     let session := {| id := sessionId; connection := ssh; shell := None;
                       isConnected := true |} in
     modify (set_sessions (insert sessionId session)) ;;
     ret session)
    (fun error =>
       throw (ErrorObj ("SSH connection failed: "
                        +:+ message_or error "Unknown error"))).

(** [session.connection.requestShell({cols, rows, term})] *)
Definition requestShell (ssh : NodeSSH) (cols rows : Z) : M Channel :=
  fun st =>
    match requestShell_result ssh with
    | inl e => (Raised e, add_call (CRequestShell (conn ssh) cols rows) st)
    | inr sh => (Returned sh, add_call (CRequestShell (conn ssh) cols rows) st)
    end.

(** [createShell] (lines 55-86 and 181-199).  Only the manager with the
    debugging listeners prints in its [catch]; the listeners it sets on the
    new shell are [stream_on_error] below and one that prints with
    [console.warn]. *)
Definition createShell (rev : Revision) (sessionId : string) (cols rows : Z)
    : M Channel :=
  let* session := sessions_get sessionId in
  match session with
  | None => throw (ErrorObj "Session not found or not connected")
  | Some session =>
      if negb (isConnected session)
      then throw (ErrorObj "Session not found or not connected")
      else
        try_catch
          (let* sh := requestShell (connection session) cols rows in
           modify (set_sessions (alter (with_shell sh) sessionId)) ;;
           ret sh)
          (fun error =>
             match rev with
             | Revised =>
                 console_error
                   ("Failed to create shell for session " +:+ sessionId +:+ ":")
                   error
             | Original => ret tt
             end ;;
             throw (ErrorObj ("Failed to create shell: "
                              +:+ message_or error "Unknown error")))
  end.

(** The listener the manager with the debugging listeners sets on a new
    shell (ssh-manager.ts 70-72); it runs before [shell_on_error] and only
    prints.  Its listener on [close] (lines 74-76) prints with
    [console.warn]. *)
Definition stream_on_error (sessionId : string) (err : Thrown) : M unit :=
  console_error ("SSH stream error for session " +:+ sessionId +:+ ":") err.

(** [resizeShell] (lines 105-116 and 218-229) *)
Definition resizeShell (sessionId : string) (cols rows : Z) : M unit :=
  let* session := sessions_get sessionId in
  match session with
  | None => throw (ErrorObj "Session or shell not found")
  | Some session =>
      match shell session with
      | None => throw (ErrorObj "Session or shell not found")
      | Some sh =>
          try_catch
            (invoke (CSetWindow (chan sh) rows cols) (setWindow_throws sh))
            (fun error => console_error "Failed to resize shell:" error)
      end
  end.

(** The body of the [try] block of [closeSession].  [session.connection]
    is the [NodeSSH] object [createSession] stored, never a falsy value. *)
Definition release (sessionId : string) (session : SSHSession) : M unit :=
  match shell session with
  | Some sh => invoke (CEnd (chan sh)) (end_throws sh)
  | None => ret tt
  end ;;
  invoke (CDispose (conn (connection session)))
         (dispose_throws (connection session)) ;;
  modify (set_sessions (alter (with_isConnected false) sessionId)).

(** [closeSession] (lines 118-137 and 231-250) *)
Definition closeSession (sessionId : string) : M unit :=
  let* session := sessions_get sessionId in
  match session with
  | None => ret tt
  | Some session =>
      try_finally
        (try_catch
           (release sessionId session)
           (fun error => console_error "Error closing session:" error))
        (modify (set_sessions (delete sessionId)))
  end.

(** [getSession] *)
Definition getSession (sessionId : string) : M (option SSHSession) :=
  sessions_get sessionId.

(** ** index.ts: the bridge of one WebSocket connection *)

(** [sendResponse]: the frame is written only when the socket is open.
    [ws.send] of a string on an open socket returns; the [try] the revised
    bridge puts around it never catches. *)
Definition sendResponse (response : SSHResponse) : M unit :=
  fun st =>
    if is_open (readyState st)
    then (Returned tt, add_wire response st)
    else (Returned tt, st).

(** What [sendResponse] adds to the wire in state [st]. *)
Definition delivered (st : State) (rs : list SSHResponse) : list SSHResponse :=
  if is_open (readyState st) then rs else [].

(** [if (sessionId) { sshManager.closeSession(sessionId); }] *)
Definition close_bound : M unit :=
  let* sid := get sessionId in
  match truthy sid with
  | Some s => closeSession s
  | None => ret tt
  end.

(** [shell.on('data', ...)] (index.ts 60-65, ssh-manager.ts 374-387).  The
    revised bridge tests [ws.readyState] once more before [sendResponse]. *)
Definition shell_on_data (rev : Revision) (chunk : string) : M unit :=
  match rev with
  | Original => sendResponse (resp_data chunk)
  | Revised =>
      let* rs := get readyState in
      if is_open rs then sendResponse (resp_data chunk) else ret tt
  end.

(** The first argument of a shell [close] event.  The revised handler
    types it [number | null]; ssh2 passes [undefined] when the channel
    closed before an exit status arrived. *)
Inductive ExitCode : Type :=
  | ExitStatus (n : Z)
  | ExitNull
  | ExitUndefined.

(** [code !== 0 && code !== null] *)
Definition unexpected_exit (code : ExitCode) : bool :=
  match code with
  | ExitStatus n => negb (Z.eqb n 0)
  | ExitNull => false
  | ExitUndefined => true
  end.

(** [shell.on('close', ...)] (index.ts 68-74, ssh-manager.ts 390-399).  The
    original listener takes no argument. *)
Definition shell_on_close (rev : Revision) (code : ExitCode)
    (signal : option string) : M unit :=
  match rev with
  | Original =>
      sendResponse resp_disconnected ;;
      close_bound
  | Revised =>
      if unexpected_exit code
      then sendResponse resp_disconnected ;; close_bound
      else ret tt
  end.

(** Reading [error.message] of the value an [error] event carries: the
    message of an [Error], [undefined] for a value without the property, a
    [TypeError] for [null] and [undefined]. *)
Definition read_message (err : Thrown) : M (option string) :=
  match err with
  | ErrorObj m => ret (Some m)
  | NonError => ret None
  | Nullish undef => throw (type_error undef "message")
  end.

(** [shell.on('error', ...)] (index.ts 77-83, ssh-manager.ts 402-412).  The
    argument of [sendResponse] is built, and [error.message] read, after
    [console.error] and before anything is sent. *)
Definition shell_on_error (rev : Revision) (err : Thrown) : M unit :=
  let* sid := get sessionId in
  console_error ("Shell error for session " +:+ show_id sid +:+ ":") err ;;
  let* text := read_message err in
  sendResponse {| rtype := error; rdata := None;
                  rerror := text; rsessionId := None |} ;;
  match rev with
  | Original => ret tt
  | Revised => close_bound
  end.

(** What [JSON.parse(data.toString())] makes of an inbound frame: it
    throws, it returns [null], or it returns a value whose properties are
    read as an [SSHMessage] (a number, a string, an array or an object
    without the property gives [None] for it). *)
Inductive Frame : Type :=
  | Unparsable (e : Thrown)
  | ParsedNull
  | Parsed (m : SSHMessage).

(** [JSON.parse] followed by the first read of [message.type], which
    throws a [TypeError] on [null]. *)
Definition parse (frame : Frame) : M SSHMessage :=
  match frame with
  | Unparsable e => throw e
  | ParsedNull =>
      throw (ErrorObj "Cannot read properties of null (reading 'type')")
  | Parsed m => ret m
  end.

(** [message.type === tag] *)
Definition has_type (message : SSHMessage) (tag : string) : bool :=
  match mtype message with
  | Some t => String.eqb t tag
  | None => false
  end.

(** The [connected] response: [{ type: 'connected' }] in index.ts line 85,
    [{ type: 'connected', sessionId }] in ssh-manager.ts line 414. *)
Definition connected_response (rev : Revision) (sid : option string)
    : SSHResponse :=
  match rev with
  | Original => resp_connected_plain
  | Revised => resp_connected_id sid
  end.

(** [case 'connect'] (index.ts 46-95, ssh-manager.ts 357-424).  [fresh] is
    the value of [generateSessionId()], [ssh] the object [new NodeSSH()]
    gives.  The three [shell.on] calls install [shell_on_data],
    [shell_on_close] and [shell_on_error]. *)
Definition case_connect (rev : Revision) (message : SSHMessage)
    (fresh : string) (ssh : NodeSSH) : M unit :=
  match config message with
  | None => sendResponse (resp_error "SSH configuration required")
  | Some cfg =>
      try_catch
        (modify (set_sessionId (Some fresh)) ;;
         let* session := createSession fresh cfg ssh in
         let* sh := createShell rev fresh 80 24 in
         let* sid := get sessionId in
         sendResponse (connected_response rev sid))
        (fun err =>
           console_error "SSH connection error:" err ;;
           sendResponse (resp_error (message_or err "Connection failed")))
  end.

(** [case 'command'] (index.ts 97-124, ssh-manager.ts 426-453) *)
Definition case_command (message : SSHMessage) : M unit :=
  let* sid := get sessionId in
  match truthy sid with
  | None => sendResponse (resp_error "No active session")
  | Some sid =>
      match truthy (command message) with
      | None => sendResponse (resp_error "Command required")
      | Some text =>
          try_catch
            (let* session := getSession sid in
             match session with
             | None => sendResponse (resp_error "Shell not available")
             | Some session =>
                 match shell session with
                 | None => sendResponse (resp_error "Shell not available")
                 | Some sh => invoke (CWrite (chan sh) text) (write_throws sh)
                 end
             end)
            (fun err =>
               console_error "Command execution error:" err ;;
               sendResponse (resp_error (message_or err "Command failed")))
      end
  end.

(** [case 'resize'] (index.ts 126-141, ssh-manager.ts 455-470) *)
Definition case_resize (message : SSHMessage) : M unit :=
  let* sid := get sessionId in
  match truthy sid with
  | None => sendResponse (resp_error "No active session")
  | Some sid =>
      try_catch
        (resizeShell sid (num_or (cols message) 80) (num_or (rows message) 24))
        (fun err => console_error "Resize error:" err)
  end.

(** [case 'disconnect'] (index.ts 143-150, ssh-manager.ts 472-479) *)
Definition case_disconnect : M unit :=
  let* sid := get sessionId in
  match truthy sid with
  | Some sid => closeSession sid ;; modify (set_sessionId None)
  | None => ret tt
  end ;;
  sendResponse resp_disconnected.

(** [ws.on('message', ...)] (index.ts 41-162, ssh-manager.ts 352-491) *)
Definition ws_on_message (rev : Revision) (frame : Frame) (fresh : string)
    (ssh : NodeSSH) : M unit :=
  try_catch
    (let* message := parse frame in
     if has_type message "connect" then case_connect rev message fresh ssh
     else if has_type message "command" then case_command message
     else if has_type message "resize" then case_resize message
     else if has_type message "disconnect" then case_disconnect
     else sendResponse (resp_error "Unknown message type"))
    (fun err =>
       console_error "Message parsing error:" err ;;
       sendResponse (resp_error "Invalid message format")).

(** [ws.on('close', ...)] (index.ts 165-171, ssh-manager.ts 494-500) and
    [ws.on('error', ...)] (index.ts 174-179, ssh-manager.ts 503-508); the
    other listeners of the revised bridge on these events only print. *)
Definition ws_on_close : M unit := close_bound.

Definition ws_on_error (err : Thrown) : M unit :=
  console_error "WebSocket error:" err ;;
  close_bound.

(** ** Observations used by the properties *)

(** How many frames of a list satisfy a test. *)
Definition count_resp (p : SSHResponse -> bool) (l : list SSHResponse) : nat :=
  length (filter (fun r => p r = true) l).

(** How many calls of a list are [shell.end()], [dispose()] or
    [shell.write()] calls. *)
Definition is_end (c : Call) : bool :=
  match c with CEnd _ => true | _ => false end.
Definition is_dispose (c : Call) : bool :=
  match c with CDispose _ => true | _ => false end.
Definition is_write (c : Call) : bool :=
  match c with CWrite _ _ => true | _ => false end.
Definition count_call (p : Call -> bool) (l : list Call) : nat :=
  length (filter (fun c => p c = true) l).

(** Does the frame fail to parse as a client message? *)
Definition parse_fails (frame : Frame) : bool :=
  match frame with
  | Parsed _ => false
  | _ => true
  end.

(** The shell channel of the session registered under [sid], if any. *)
Definition shell_at (st : State) (sid : string) : option Channel :=
  match sessions st !! sid with
  | Some s => shell s
  | None => None
  end.

(** What the [try] block of [closeSession] throws on session [s], if
    anything, and the calls it makes before that. *)
Definition release_raises (s : SSHSession) : option Thrown :=
  match shell s with
  | Some sh =>
      match end_throws sh with
      | Some e => Some e
      | None => dispose_throws (connection s)
      end
  | None => dispose_throws (connection s)
  end.

Definition release_calls (s : SSHSession) : list Call :=
  match shell s with
  | Some sh =>
      CEnd (chan sh) ::
      match end_throws sh with
      | Some _ => []
      | None => [CDispose (conn (connection s))]
      end
  | None => [CDispose (conn (connection s))]
  end.

Definition release_log (s : SSHSession) : list (string * Thrown) :=
  match release_raises s with
  | Some e => [("Error closing session:", e)]
  | None => []
  end.

(** The message of the error a [connect] attempt on [ssh] ends with, when
    establishment ([ssh.connect]) or shell opening ([requestShell]) fails. *)
Definition connect_failure (ssh : NodeSSH) : option string :=
  match connect_throws ssh with
  | Some e => Some ("SSH connection failed: " +:+ message_or e "Unknown error")
  | None =>
      match requestShell_result ssh with
      | inl e => Some ("Failed to create shell: " +:+ message_or e "Unknown error")
      | inr _ => None
      end
  end.

(** The session [createSession] then [createShell] register. *)
Definition new_session (fresh : string) (ssh : NodeSSH) (sh : Channel)
    : SSHSession :=
  {| id := fresh; connection := ssh; shell := Some sh; isConnected := true |}.

(** A channel close event was answered with one [disconnected] response
    and the removal of the session bound to the connection. *)
Definition closed_with_notice (st st' : State) : Prop :=
  wire st' = wire st ++ delivered st [resp_disconnected]
  /\ sessionId st' = sessionId st
  /\ match truthy (sessionId st) with
     | Some sid => sessions st' = delete sid (sessions st)
     | None => sessions st' = sessions st
     end.

(** What [case 'resize'] prints with identifier [sid] bound, and the call
    it makes. *)
Definition resize_log (st : State) (sid : string) : list (string * Thrown) :=
  match sessions st !! sid with
  | None => [("Resize error:", ErrorObj "Session or shell not found")]
  | Some s =>
      match shell s with
      | None => [("Resize error:", ErrorObj "Session or shell not found")]
      | Some sh =>
          match setWindow_throws sh with
          | Some e => [("Failed to resize shell:", e)]
          | None => []
          end
      end
  end.

Definition resize_calls (st : State) (sid : string) (m : SSHMessage)
    : list Call :=
  match shell_at st sid with
  | Some sh => [CSetWindow (chan sh) (num_or (rows m) 24) (num_or (cols m) 80)]
  | None => []
  end.

(** What a failed [connect] prints: the revised manager prints once more
    when it is the shell that fails. *)
Definition connect_failure_log (rev : Revision) (fresh : string)
    (ssh : NodeSSH) (text : string) : list (string * Thrown) :=
  match connect_throws ssh, requestShell_result ssh, rev with
  | None, inl e, Revised =>
      [("Failed to create shell for session " +:+ fresh +:+ ":", e);
       ("SSH connection error:", ErrorObj text)]
  | _, _, _ => [("SSH connection error:", ErrorObj text)]
  end.

(** ** Sample objects and states *)

Definition sample_channel : Channel :=
  {| chan := 1; end_throws := None; setWindow_throws := None;
     write_throws := None |}.

Definition sample_ssh : NodeSSH :=
  {| conn := 1; connect_throws := None;
     requestShell_result := inr sample_channel; dispose_throws := None |}.

Definition sample_session : SSHSession :=
  {| id := "k3x9"; connection := sample_ssh; shell := Some sample_channel;
     isConnected := true |}.

(** A channel whose [end()] throws, and a session that owns it. *)
Definition stuck_channel : Channel :=
  {| chan := 2; end_throws := Some (ErrorObj "write after end");
     setWindow_throws := None; write_throws := None |}.

Definition stuck_session : SSHSession :=
  {| id := "k3x9"; connection := sample_ssh; shell := Some stuck_channel;
     isConnected := true |}.

(** A provider that rejects the credentials, and one that connects but
    refuses the shell. *)
Definition rejecting_ssh : NodeSSH :=
  {| conn := 3; connect_throws := Some (ErrorObj "bad credentials");
     requestShell_result := inr sample_channel; dispose_throws := None |}.

Definition shell_less_ssh : NodeSSH :=
  {| conn := 4; connect_throws := None;
     requestShell_result := inl (ErrorObj "channel open failure");
     dispose_throws := None |}.

Definition st_idle : State :=
  {| sessions := ∅; sessionId := None; readyState := OPEN; wire := [];
     calls := []; console := [] |}.

Definition st_active : State :=
  {| sessions := {["k3x9" := sample_session]}; sessionId := Some "k3x9";
     readyState := OPEN; wire := []; calls := []; console := [] |}.

Definition st_stuck : State :=
  {| sessions := {["k3x9" := stuck_session]}; sessionId := Some "k3x9";
     readyState := OPEN; wire := []; calls := []; console := [] |}.

Definition sample_config : SSHConnectionConfig :=
  {| host := "h"; port := 22; username := "u"; password := Some "p";
     privateKey := None; passphrase := None |}.

Definition msg (tag : string) : SSHMessage :=
  {| mtype := Some tag; config := None; command := None; cols := None;
     rows := None |}.

Definition msg_connect : SSHMessage :=
  {| mtype := Some "connect"; config := Some sample_config; command := None;
     cols := None; rows := None |}.

Definition msg_command (text : string) : SSHMessage :=
  {| mtype := Some "command"; config := None; command := Some text;
     cols := None; rows := None |}.

Definition msg_resize (c r : Z) : SSHMessage :=
  {| mtype := Some "resize"; config := None; command := None;
     cols := Some c; rows := Some r |}.

(** ** The rest of the manager, and the events of one connection *)

(** What [session.connection.execCommand(command)] resolves with. *)
Record ExecResult : Type := {
  stdout : string;
  stderr : string;
}.

(** [executeCommand] (ssh-manager.ts 88-103 and 201-216).  [execCommand]
    is what the provider's [execCommand] does on a connection and a
    command line; neither bridge calls this method, and the call is not
    listed in [calls]. *)
Definition executeCommand
    (execCommand : NodeSSH -> string -> Thrown + ExecResult)
    (sessionId : string) (line : string) : M ExecResult :=
  let* session := sessions_get sessionId in
  match session with
  | None => throw (ErrorObj "Session not found or not connected")
  | Some session =>
      if negb (isConnected session)
      then throw (ErrorObj "Session not found or not connected")
      else
        try_catch
          (match execCommand (connection session) line with
           | inl e => throw e
           | inr result =>
               ret {| stdout := stdout result; stderr := stderr result |}
           end)
          (fun error =>
             throw (ErrorObj ("Command execution failed: "
                              +:+ message_or error "Unknown error")))
  end.

(** The first [error] listener the revised bridge sets on the socket
    (ssh-manager.ts 320-325); it runs before [ws_on_error] and only
    prints.  Its first [close] listener (lines 327-334) prints with
    [console.warn]. *)
Definition ws_debug_on_error (err : Thrown) : M unit :=
  console_error "WS error:" err ;;
  let* sid := get sessionId in
  match truthy sid with
  | Some s => console_error ("WS error for session " +:+ s +:+ ":") err
  | None => ret tt
  end.

Definition set_readyState (r : ReadyState) (st : State) : State :=
  {| sessions := sessions st; sessionId := sessionId st;
     readyState := r; wire := wire st; calls := calls st;
     console := console st |}.

(** What can happen on one connection: a frame arrives (with the
    identifier [generateSessionId] would draw and the object
    [new NodeSSH()] would give), the socket emits [close] or [error], a
    shell the connection opened emits [data], [close] or [error] ([owner]
    is the identifier the shell was created for), or the socket moves to
    another state, which is the doing of the [ws] library and of the
    peer, not of a listener. *)
Inductive Event : Type :=
  | WsMessage (frame : Frame) (fresh : string) (ssh : NodeSSH)
  | WsClose
  | WsError (err : Thrown)
  | ShellData (chunk : string)
  | ShellClose (code : ExitCode) (signal : option string)
  | ShellError (owner : string) (err : Thrown)
  | WsState (r : ReadyState).

(** The listeners of an event, in the order they were registered. *)
Definition emit (rev : Revision) (ev : Event) : M unit :=
  match ev with
  | WsMessage frame fresh ssh => ws_on_message rev frame fresh ssh
  | WsClose => ws_on_close
  | WsError err =>
      match rev with
      | Original => ws_on_error err
      | Revised => ws_debug_on_error err ;; ws_on_error err
      end
  | ShellData chunk => shell_on_data rev chunk
  | ShellClose code signal => shell_on_close rev code signal
  | ShellError owner err =>
      match rev with
      | Original => shell_on_error rev err
      | Revised => stream_on_error owner err ;; shell_on_error rev err
      end
  | WsState r => modify (set_readyState r)
  end.

(** What the listeners of an event end with: they return, except that
    the bridge's shell [error] listener throws when the event carries
    [null] or [undefined], whose [message] it reads. *)
Definition listeners_end (ev : Event) : Outcome unit :=
  match ev with
  | ShellError _ (Nullish undef) => Raised (type_error undef "message")
  | _ => Returned tt
  end.

(** The state after a sequence of events. *)
Definition run (rev : Revision) (evs : list Event) (st : State) : State :=
  fold_left (fun st ev => exec (emit rev ev) st) evs st.

(** The socket's state after an event. *)
Definition readyState_after (ev : Event) (st : State) : ReadyState :=
  match ev with
  | WsState r => r
  | _ => readyState st
  end.

(** The event does not open the socket. *)
Definition keeps_shut (ev : Event) : Prop :=
  match ev with
  | WsState r => r <> OPEN
  | _ => True
  end.

(** The identifier an event may register a session under. *)
Definition fresh_of (ev : Event) : option string :=
  match ev with
  | WsMessage _ fresh _ => Some fresh
  | _ => None
  end.

(** Every session is registered under its own identifier and is marked
    connected. *)
Definition sessions_ok (ss : gmap string SSHSession) : Prop :=
  forall k s, ss !! k = Some s -> id s = k /\ isConnected s = true.

(** The tag of the message is none of the four the [switch] knows. *)
Definition unknown_type (m : SSHMessage) : bool :=
  negb (has_type m "connect") && negb (has_type m "command")
  && negb (has_type m "resize") && negb (has_type m "disconnect").

(** The session registered under the identifier bound to the connection,
    if there is one. *)
Definition bound_session (st : State) : option SSHSession :=
  match truthy (sessionId st) with
  | Some sid => sessions st !! sid
  | None => None
  end.

(** A provider whose [execCommand] echoes the command line. *)
Definition echo_exec (ssh : NodeSSH) (line : string) : Thrown + ExecResult :=
  inr {| stdout := line; stderr := EmptyString |}.

(** A second provider object and its channel. *)
Definition other_channel : Channel :=
  {| chan := 5; end_throws := None; setWindow_throws := None;
     write_throws := Some (ErrorObj "write EPIPE") |}.

Definition other_ssh : NodeSSH :=
  {| conn := 5; connect_throws := None;
     requestShell_result := inr other_channel; dispose_throws := None |}.

(** A connection whose session owns [other_channel]. *)
Definition st_other : State :=
  {| sessions := {["p7" := new_session "p7" other_ssh other_channel]};
     sessionId := Some "p7"; readyState := OPEN; wire := [];
     calls := []; console := [] |}.

(** What a listener may do to the socket, the wire and the registry: the
    socket's state is kept, at most one frame is handed to [sendResponse],
    only the session of the bound identifier or of the fresh identifier
    is touched, and a registry that is in order stays in order. *)
Definition contained (fresh : option string) (st st' : State) : Prop :=
  readyState st' = readyState st
  /\ (exists rs, wire st' = wire st ++ delivered st rs /\ (length rs <= 1)%nat)
  /\ (forall k, fresh <> Some k -> truthy (sessionId st) <> Some k ->
        sessions st' !! k = sessions st !! k)
  /\ (sessions_ok (sessions st) -> sessions_ok (sessions st')).

(** The three ways a handler changes the registry. *)
Definition registry_step (fresh : option string) (st : State)
    (ss' : gmap string SSHSession) : Prop :=
  ss' = sessions st
  \/ (exists sid, truthy (sessionId st) = Some sid
                  /\ ss' = delete sid (sessions st))
  \/ (exists f s, fresh = Some f /\ id s = f /\ isConnected s = true
                  /\ ss' = <[f := s]> (sessions st)).

(** * Properties *)

(** ** Running the pieces *)

Lemma bind_ret_l {A B} (a : A) (k : A -> M B) st : bind (ret a) k st = k a st.
Proof. reflexivity. Qed.

Lemma bind_ret_r {A} (m : M A) st : bind m ret st = m st.
Proof. unfold bind, ret. destruct (m st) as [[a|e] st']; reflexivity. Qed.

Lemma bind_assoc {A B C} (m : M A) (k : A -> M B) (h : B -> M C) st :
  bind (bind m k) h st = bind m (fun a => bind (k a) h) st.
Proof. unfold bind. destruct (m st) as [[a|e] st']; reflexivity. Qed.

Lemma try_catch_throw {A} (e : Thrown) (handler : Thrown -> M A) st :
  try_catch (throw e) handler st = handler e st.
Proof. reflexivity. Qed.

Lemma delivered_open st rs : readyState st = OPEN -> delivered st rs = rs.
Proof. intros H. unfold delivered. rewrite H. reflexivity. Qed.

Lemma delivered_not_open st rs : readyState st <> OPEN -> delivered st rs = [].
Proof.
  intros H. unfold delivered.
  destruct (readyState st); simpl; congruence.
Qed.

Lemma sendResponse_run r st :
  sendResponse r st =
    (Returned tt,
     {| sessions := sessions st; sessionId := sessionId st;
        readyState := readyState st; wire := wire st ++ delivered st [r];
        calls := calls st; console := console st |}).
Proof.
  unfold sendResponse, delivered, add_wire.
  destruct st as [ss sid rs w cs co]; simpl.
  destruct (is_open rs); simpl; rewrite ?app_nil_r; reflexivity.
Qed.

Lemma closeSession_absent sid st :
  sessions st !! sid = None -> closeSession sid st = (Returned tt, st).
Proof.
  intros H. unfold closeSession, sessions_get, bind, get. rewrite H. reflexivity.
Qed.

Lemma closeSession_present sid s st :
  sessions st !! sid = Some s ->
  closeSession sid st =
    (Returned tt,
     {| sessions := delete sid (sessions st); sessionId := sessionId st;
        readyState := readyState st; wire := wire st;
        calls := calls st ++ release_calls s;
        console := console st ++ release_log s |}).
Proof.
  intros H. unfold closeSession, sessions_get, bind, get. rewrite H.
  unfold try_finally, try_catch, release, release_calls, release_log,
    release_raises, bind, invoke, modify, console_error, ret.
  destruct s as [i c [sh|] b]; simpl;
    [destruct (end_throws sh); simpl|];
    try destruct (dispose_throws c); simpl;
    unfold set_sessions, add_call, add_console; simpl;
    rewrite ?delete_alter_eq, ?app_nil_r, <- ?app_assoc; reflexivity.
Qed.

(** Whatever the registry holds, [closeSession] returns, leaves the
    identifier unregistered and touches neither the wire, the socket nor
    the bound identifier. *)
Lemma closeSession_frame sid st :
  outcome (closeSession sid) st = Returned tt
  /\ sessions (exec (closeSession sid) st) = delete sid (sessions st)
  /\ sessionId (exec (closeSession sid) st) = sessionId st
  /\ readyState (exec (closeSession sid) st) = readyState st
  /\ wire (exec (closeSession sid) st) = wire st.
Proof.
  unfold outcome, exec.
  destruct (sessions st !! sid) as [s|] eqn:H.
  - rewrite (closeSession_present _ _ _ H). simpl. auto.
  - rewrite (closeSession_absent _ _ H). simpl.
    rewrite delete_id by exact H. auto.
Qed.

Lemma close_bound_run st :
  close_bound st =
    match truthy (sessionId st) with
    | Some sid => closeSession sid st
    | None => (Returned tt, st)
    end.
Proof.
  unfold close_bound, bind, get. destruct (truthy (sessionId st)); reflexivity.
Qed.

Lemma close_bound_frame st :
  outcome close_bound st = Returned tt
  /\ sessions (exec close_bound st) =
       match truthy (sessionId st) with
       | Some sid => delete sid (sessions st)
       | None => sessions st
       end
  /\ sessionId (exec close_bound st) = sessionId st
  /\ readyState (exec close_bound st) = readyState st
  /\ wire (exec close_bound st) = wire st.
Proof.
  unfold outcome, exec. rewrite close_bound_run.
  destruct (truthy (sessionId st)) as [sid|]; [|simpl; auto].
  apply closeSession_frame.
Qed.

(** The [switch] of the message handler, tag by tag. *)
Lemma has_type_tag m tag other :
  mtype m = Some tag -> has_type m other = String.eqb tag other.
Proof. intros H. unfold has_type. rewrite H. reflexivity. Qed.

Lemma ws_on_message_unparsed rev frame fresh ssh st :
  parse_fails frame = true ->
  exists e,
    ws_on_message rev frame fresh ssh st =
      (Returned tt,
       {| sessions := sessions st; sessionId := sessionId st;
          readyState := readyState st;
          wire := wire st ++ delivered st [resp_error "Invalid message format"];
          calls := calls st;
          console := console st ++ [("Message parsing error:", e)] |}).
Proof.
  intros H. destruct frame as [e| |m]; [| |discriminate H].
  - exists e. unfold ws_on_message, try_catch, bind, parse, throw,
      console_error, modify. simpl.
    rewrite sendResponse_run. reflexivity.
  - eexists. unfold ws_on_message, try_catch, bind, parse, throw,
      console_error, modify. simpl.
    rewrite sendResponse_run. reflexivity.
Qed.

(** The [switch] takes the case of the tag the message carries. *)
Ltac dispatch H :=
  unfold ws_on_message, try_catch, bind, parse, ret;
  rewrite !(has_type_tag _ _ _ H); reflexivity.

Lemma ws_on_message_command rev m fresh ssh st :
  mtype m = Some "command" ->
  ws_on_message rev (Parsed m) fresh ssh st =
    try_catch (case_command m)
      (fun err => console_error "Message parsing error:" err ;;
                  sendResponse (resp_error "Invalid message format")) st.
Proof. intros H. dispatch H. Qed.

Lemma ws_on_message_resize rev m fresh ssh st :
  mtype m = Some "resize" ->
  ws_on_message rev (Parsed m) fresh ssh st =
    try_catch (case_resize m)
      (fun err => console_error "Message parsing error:" err ;;
                  sendResponse (resp_error "Invalid message format")) st.
Proof. intros H. dispatch H. Qed.

Lemma ws_on_message_disconnect rev m fresh ssh st :
  mtype m = Some "disconnect" ->
  ws_on_message rev (Parsed m) fresh ssh st =
    try_catch case_disconnect
      (fun err => console_error "Message parsing error:" err ;;
                  sendResponse (resp_error "Invalid message format")) st.
Proof. intros H. dispatch H. Qed.

Lemma ws_on_message_connect rev m fresh ssh st :
  mtype m = Some "connect" ->
  ws_on_message rev (Parsed m) fresh ssh st =
    try_catch (case_connect rev m fresh ssh)
      (fun err => console_error "Message parsing error:" err ;;
                  sendResponse (resp_error "Invalid message format")) st.
Proof. intros H. dispatch H. Qed.

(** A [try] whose body returns is its body. *)
Lemma try_catch_returned {A} (body : M A) handler st a st' :
  body st = (Returned a, st') -> try_catch body handler st = (Returned a, st').
Proof. intros H. unfold try_catch. rewrite H. reflexivity. Qed.

(** [case 'command'] with an identifier bound and a non-empty text. *)
Lemma case_command_run m st sid text :
  truthy (sessionId st) = Some sid ->
  truthy (command m) = Some text ->
  case_command m st =
    match shell_at st sid with
    | None => sendResponse (resp_error "Shell not available") st
    | Some sh =>
        match write_throws sh with
        | None => (Returned tt, add_call (CWrite (chan sh) text) st)
        | Some e =>
            sendResponse (resp_error (message_or e "Command failed"))
              (add_console "Command execution error:" e
                 (add_call (CWrite (chan sh) text) st))
        end
    end.
Proof.
  intros Hs Hc. unfold case_command, bind, get. rewrite Hs, Hc.
  unfold try_catch, getSession, sessions_get, bind, get, shell_at.
  destruct (sessions st !! sid) as [s|]; simpl.
  - destruct (shell s) as [sh|]; simpl.
    + unfold invoke. destruct (write_throws sh); reflexivity.
    + rewrite sendResponse_run. reflexivity.
  - rewrite sendResponse_run. reflexivity.
Qed.

Lemma case_command_empty m st sid :
  truthy (sessionId st) = Some sid ->
  truthy (command m) = None ->
  case_command m st = sendResponse (resp_error "Command required") st.
Proof.
  intros Hs Hc. unfold case_command, bind, get. rewrite Hs, Hc. reflexivity.
Qed.

Lemma case_resize_run m st sid :
  truthy (sessionId st) = Some sid ->
  case_resize m st =
    (Returned tt,
     {| sessions := sessions st; sessionId := sessionId st;
        readyState := readyState st; wire := wire st;
        calls := calls st ++ resize_calls st sid m;
        console := console st ++ resize_log st sid |}).
Proof.
  intros Hs. unfold case_resize, bind, get. rewrite Hs.
  unfold try_catch, resizeShell, sessions_get, bind, get, resize_log,
    resize_calls, shell_at, throw, console_error, modify, add_console.
  destruct st as [ss sid0 rs w cs co]; simpl in *.
  destruct (ss !! sid) as [s|]; simpl; [|rewrite app_nil_r; reflexivity].
  destruct (shell s) as [sh|]; simpl; [|rewrite app_nil_r; reflexivity].
  unfold invoke, add_call. destruct (setWindow_throws sh); simpl;
    rewrite ?app_nil_r; reflexivity.
Qed.

Lemma case_disconnect_run st :
  case_disconnect st =
    sendResponse resp_disconnected
      (match truthy (sessionId st) with
       | Some sid => set_sessionId None (exec (closeSession sid) st)
       | None => st
       end).
Proof.
  unfold case_disconnect, bind, get.
  destruct (truthy (sessionId st)) as [sid|]; [|reflexivity].
  unfold modify, exec.
  pose proof (closeSession_frame sid st) as [Ho _]. unfold outcome in Ho.
  destruct (closeSession sid st) as [o st1]. simpl in *. subst o. reflexivity.
Qed.

(** [case 'connect'], when the provider accepts. *)
Lemma case_connect_success rev m fresh ssh st cfg sh :
  config m = Some cfg ->
  connect_throws ssh = None ->
  requestShell_result ssh = inr sh ->
  case_connect rev m fresh ssh st =
    (Returned tt,
     {| sessions := <[fresh := new_session fresh ssh sh]> (sessions st);
        sessionId := Some fresh;
        readyState := readyState st;
        wire := wire st ++ delivered st [connected_response rev (Some fresh)];
        calls := calls st ++ [CConnect (conn ssh) (connect_options cfg);
                              CRequestShell (conn ssh) 80 24];
        console := console st |}).
Proof.
  intros Hc Ht Hr. unfold case_connect. rewrite Hc.
  unfold try_catch, bind, modify, createSession, try_catch, bind, invoke.
  rewrite Ht. simpl.
  unfold createShell, sessions_get, bind, get, modify, ret. simpl.
  rewrite lookup_insert_eq. simpl.
  unfold try_catch, bind, requestShell. simpl. rewrite Hr. simpl.
  rewrite sendResponse_run. simpl.
  rewrite alter_insert_eq. unfold with_shell, new_session. simpl.
  unfold delivered. simpl. rewrite <- app_assoc. reflexivity.
Qed.

(** [case 'connect'], when establishment or shell opening fails. *)
Lemma case_connect_failure rev m fresh ssh st cfg text :
  config m = Some cfg ->
  connect_failure ssh = Some text ->
  case_connect rev m fresh ssh st =
    (Returned tt,
     {| sessions :=
          match connect_throws ssh with
          | Some _ => sessions st
          | None =>
              <[fresh := {| id := fresh; connection := ssh; shell := None;
                            isConnected := true |}]> (sessions st)
          end;
        sessionId := Some fresh;
        readyState := readyState st;
        wire := wire st ++ delivered st [resp_error text];
        calls := calls st ++
          match connect_throws ssh with
          | Some _ => [CConnect (conn ssh) (connect_options cfg)]
          | None => [CConnect (conn ssh) (connect_options cfg);
                     CRequestShell (conn ssh) 80 24]
          end;
        console := console st ++ connect_failure_log rev fresh ssh text |}).
Proof.
  intros Hc Hf. unfold case_connect. rewrite Hc.
  unfold connect_failure in Hf. unfold connect_failure_log.
  unfold try_catch, bind, modify, createSession, try_catch, bind, invoke.
  destruct (connect_throws ssh) as [e|]; simpl.
  - injection Hf as <-. unfold console_error, modify. simpl.
    rewrite sendResponse_run. simpl. unfold delivered. simpl.
    destruct (requestShell_result ssh), rev; reflexivity.
  - destruct (requestShell_result ssh) as [e|sh] eqn:Hr; [|discriminate Hf].
    injection Hf as <-.
    unfold createShell, sessions_get, bind, get, modify, ret. simpl.
    rewrite lookup_insert_eq. simpl.
    unfold try_catch, bind, requestShell. simpl. rewrite Hr. simpl.
    destruct rev; simpl; unfold console_error, modify, bind, throw, ret; simpl;
      rewrite sendResponse_run; simpl; unfold delivered; simpl;
      rewrite <- ?app_assoc; reflexivity.
Qed.

(** ** Channel close events *)

(** C1, as amended.  In the revised bridge (ssh-manager.ts 390-399) a close
    event whose exit code is zero or [null] changes nothing and sends
    nothing; a close event whose exit code is a non-zero number hands
    exactly one [disconnected] response to [sendResponse] (written when
    the socket is open) and removes the session bound to the connection.
    In the original bridge (index.ts 68-74) every close event, whatever
    it carries, does the latter. *)
Theorem shell_on_close_by_revision :
  (forall code signal st,
      code = ExitNull \/ code = ExitStatus 0 ->
      shell_on_close Revised code signal st = (Returned tt, st))
  /\ (forall c signal st,
      c <> 0 ->
      closed_with_notice st
        (exec (shell_on_close Revised (ExitStatus c) signal) st))
  /\ (forall code signal st,
      closed_with_notice st (exec (shell_on_close Original code signal) st)).
Proof.
  assert (Hnotice : forall st,
    closed_with_notice st (exec (sendResponse resp_disconnected ;; close_bound) st)).
  { intros st. unfold exec, bind. rewrite sendResponse_run.
    set (st1 := {| sessions := sessions st; sessionId := sessionId st;
                   readyState := readyState st;
                   wire := wire st ++ delivered st [resp_disconnected];
                   calls := calls st; console := console st |}).
    destruct (close_bound_frame st1) as (_ & Hs & Hi & _ & Hw).
    unfold exec in *. unfold closed_with_notice.
    rewrite Hw, Hi, Hs. simpl. repeat split.
    destruct (truthy (sessionId st)); reflexivity. }
  split; [|split].
  - intros code signal st [-> | ->]; reflexivity.
  - intros c signal st Hc. unfold shell_on_close, unexpected_exit.
    destruct (Z.eqb_spec c 0) as [E|_]; [contradiction|]. simpl.
    apply Hnotice.
  - intros code signal st. apply Hnotice.
Qed.

Lemma shell_on_close_by_revision_witness :
  (1 <> 0)
  /\ closed_with_notice st_active
       (exec (shell_on_close Revised (ExitStatus 1) None) st_active)
  /\ shell_on_close Revised (ExitStatus 0) None st_active
     = (Returned tt, st_active)
  /\ shell_on_close Revised ExitNull None st_active = (Returned tt, st_active).
Proof.
  destruct shell_on_close_by_revision as (Hclean & Habnormal & _).
  split; [discriminate|]. split; [|split].
  - apply Habnormal. discriminate.
  - apply Hclean. right. reflexivity.
  - apply Hclean. left. reflexivity.
Defined.

(** C1 as stated fails.  On the original bridge a close event with exit
    code zero, or with [null], writes a [disconnected] frame on an open
    socket.  On the revised bridge a close event that carries no exit
    code at all ([undefined]) does so too, since [undefined] is neither
    [0] nor [null]. *)
Lemma original_close_clean_exit_notifies :
  readyState st_active = OPEN
  /\ wire st_active = []
  /\ wire (exec (shell_on_close Original (ExitStatus 0) None) st_active)
     = [resp_disconnected]
  /\ count_resp is_disconnected
       (wire (exec (shell_on_close Original (ExitStatus 0) None) st_active))
     = 1%nat
  /\ wire (exec (shell_on_close Original ExitNull None) st_active)
     = [resp_disconnected]
  /\ wire (exec (shell_on_close Revised ExitUndefined None) st_active)
     = [resp_disconnected]
  /\ sessions (exec (shell_on_close Revised ExitUndefined None) st_active)
       !! "k3x9" = None.
Proof. repeat split; vm_compute; reflexivity. Qed.

(** ** Channel error events *)

(** C4, as amended.  Both bridges print the error and hand one [error]
    response with the channel's message to [sendResponse].  The revised
    bridge (ssh-manager.ts 402-412) then removes the session bound to the
    connection; the original bridge (index.ts 77-83) leaves the registry
    as it is. *)
Theorem shell_on_error_by_revision (rev : Revision) (text : string)
    (st : State) :
  let st' := exec (shell_on_error rev (ErrorObj text)) st in
  outcome (shell_on_error rev (ErrorObj text)) st = Returned tt
  /\ wire st' = wire st ++ delivered st [resp_error text]
  /\ sessionId st' = sessionId st
  /\ sessions st' =
       match rev, truthy (sessionId st) with
       | Revised, Some sid => delete sid (sessions st)
       | _, _ => sessions st
       end
  /\ shell_on_error Revised (ErrorObj text) st =
       close_bound
         (exec (sendResponse (resp_error text))
            (add_console
               ("Shell error for session " +:+ show_id (sessionId st) +:+ ":")
               (ErrorObj text) st)).
Proof.
  assert (Horder : shell_on_error Revised (ErrorObj text) st =
       close_bound
         (exec (sendResponse (resp_error text))
            (add_console
               ("Shell error for session " +:+ show_id (sessionId st) +:+ ":")
               (ErrorObj text) st))).
  { unfold shell_on_error, exec, bind, get, console_error, modify. simpl.
    rewrite !sendResponse_run. reflexivity. }
  intros st'. subst st'.
  cut (outcome (shell_on_error rev (ErrorObj text)) st = Returned tt
       /\ wire (exec (shell_on_error rev (ErrorObj text)) st)
          = wire st ++ delivered st [resp_error text]
       /\ sessionId (exec (shell_on_error rev (ErrorObj text)) st) = sessionId st
       /\ sessions (exec (shell_on_error rev (ErrorObj text)) st) =
            match rev, truthy (sessionId st) with
            | Revised, Some sid => delete sid (sessions st)
            | _, _ => sessions st
            end).
  { intros (H1 & H2 & H3 & H4). auto. }
  clear Horder.
  unfold shell_on_error, exec, outcome, bind, get, console_error, modify.
  simpl. rewrite sendResponse_run. simpl.
  change (delivered (add_console _ _ st)) with (delivered st).
  set (st1 := {| sessions := sessions st; sessionId := sessionId st;
                 readyState := readyState st;
                 wire := wire st ++ delivered st [resp_error text];
                 calls := calls st;
                 console := console st ++
                   [("Shell error for session " +:+ show_id (sessionId st) +:+ ":",
                     ErrorObj text)] |}).
  destruct (close_bound_frame st1) as (Ho & Hs & Hi & _ & Hw).
  unfold exec, outcome in *.
  destruct rev.
  - simpl. repeat split; reflexivity.
  - change (close_bound _) with (close_bound st1).
    rewrite Ho, Hs, Hi, Hw. simpl.
    destruct (truthy (sessionId st)); repeat split; reflexivity.
Qed.

(** C4 as stated fails on the original bridge: after the error event the
    session is still registered. *)
Lemma original_error_keeps_session :
  sessionId st_active = Some "k3x9"
  /\ sessions st_active !! "k3x9" = Some sample_session
  /\ sessions (exec (shell_on_error Original (ErrorObj "ECONNRESET")) st_active)
       !! "k3x9" = Some sample_session.
Proof. repeat split; vm_compute; reflexivity. Qed.

(** ** A connect message the provider accepts *)

(** C5, as amended.  When [ssh.connect] and [requestShell] both succeed,
    exactly one [connected] response is handed to [sendResponse], the new
    session is registered under the generated identifier and that
    identifier is bound.  The response of the revised bridge
    (ssh-manager.ts 414) carries the identifier; the response of the
    original bridge (index.ts 85) carries none. *)
Theorem connect_success_response (rev : Revision) (m : SSHMessage)
    (fresh : string) (ssh : NodeSSH) (st : State)
    (cfg : SSHConnectionConfig) (sh : Channel) :
  mtype m = Some "connect" ->
  config m = Some cfg ->
  connect_throws ssh = None ->
  requestShell_result ssh = inr sh ->
  let st' := exec (ws_on_message rev (Parsed m) fresh ssh) st in
  outcome (ws_on_message rev (Parsed m) fresh ssh) st = Returned tt
  /\ wire st' = wire st ++ delivered st [connected_response rev (Some fresh)]
  /\ rtype (connected_response rev (Some fresh)) = connected
  /\ rsessionId (connected_response rev (Some fresh)) =
       match rev with Revised => Some fresh | Original => None end
  /\ sessions st' = <[fresh := new_session fresh ssh sh]> (sessions st)
  /\ sessionId st' = Some fresh.
Proof.
  intros Ht Hc Hok Hsh. unfold exec, outcome.
  rewrite (ws_on_message_connect _ _ _ _ _ Ht).
  rewrite (try_catch_returned _ _ _ _ _
             (case_connect_success rev m fresh ssh st cfg sh Hc Hok Hsh)).
  simpl. destruct rev; repeat split; reflexivity.
Qed.

Lemma connect_success_response_witness :
  mtype msg_connect = Some "connect"
  /\ wire (exec (ws_on_message Revised (Parsed msg_connect) "k3x9" sample_ssh)
             st_idle)
     = [resp_connected_id (Some "k3x9")]
  /\ sessions (exec (ws_on_message Revised (Parsed msg_connect) "k3x9" sample_ssh)
                 st_idle)
     = <["k3x9" := sample_session]> ∅.
Proof.
  pose proof (connect_success_response Revised msg_connect "k3x9" sample_ssh
                st_idle sample_config sample_channel
                eq_refl eq_refl eq_refl eq_refl) as (_ & Hw & _ & _ & Hs & _).
  split; [reflexivity|]. split; [exact Hw | exact Hs].
Defined.

(** C5 as stated fails on the original bridge: the session is registered
    under the generated identifier, and the [connected] response carries
    no identifier. *)
Lemma original_connected_without_identifier :
  wire (exec (ws_on_message Original (Parsed msg_connect) "k3x9" sample_ssh)
          st_idle)
  = [resp_connected_plain]
  /\ rsessionId resp_connected_plain = None
  /\ id <$> (sessions
               (exec (ws_on_message Original (Parsed msg_connect) "k3x9"
                        sample_ssh) st_idle) !! "k3x9")
     = Some "k3x9".
Proof. repeat split; vm_compute; reflexivity. Qed.

(** ** A connect message the provider refuses *)

(** C2, as amended.  When [ssh.connect] or [requestShell] fails, exactly
    one [error] response, with the failure's message, is handed to
    [sendResponse]; when it is [ssh.connect] that fails the registry is
    left as it was.  The generated identifier stays bound, and no shell is
    reachable under it: a later command with a text is answered
    [Shell not available] and reaches no channel, a later resize is
    answered with nothing, and a later disconnect is answered
    [disconnected], after which the identifier is unbound and unregistered. *)
Theorem connect_failure_response (rev : Revision) (m : SSHMessage)
    (fresh : string) (ssh : NodeSSH) (st : State)
    (cfg : SSHConnectionConfig) (text : string) :
  mtype m = Some "connect" ->
  config m = Some cfg ->
  connect_failure ssh = Some text ->
  fresh <> EmptyString ->
  sessions st !! fresh = None ->
  let st' := exec (ws_on_message rev (Parsed m) fresh ssh) st in
  outcome (ws_on_message rev (Parsed m) fresh ssh) st = Returned tt
  /\ wire st' = wire st ++ delivered st [resp_error text]
  /\ (connect_throws ssh <> None -> sessions st' = sessions st)
  /\ sessionId st' = Some fresh
  /\ shell_at st' fresh = None
  /\ (forall m2 fresh2 ssh2 line,
        mtype m2 = Some "command" -> truthy (command m2) = Some line ->
        let st2 := exec (ws_on_message rev (Parsed m2) fresh2 ssh2) st' in
        wire st2 = wire st' ++ delivered st' [resp_error "Shell not available"]
        /\ calls st2 = calls st' /\ sessions st2 = sessions st')
  /\ (forall m2 fresh2 ssh2,
        mtype m2 = Some "resize" ->
        let st2 := exec (ws_on_message rev (Parsed m2) fresh2 ssh2) st' in
        wire st2 = wire st'
        /\ calls st2 = calls st' /\ sessions st2 = sessions st')
  /\ (forall m2 fresh2 ssh2,
        mtype m2 = Some "disconnect" ->
        let st2 := exec (ws_on_message rev (Parsed m2) fresh2 ssh2) st' in
        wire st2 = wire st' ++ delivered st' [resp_disconnected]
        /\ sessionId st2 = None /\ sessions st2 !! fresh = None).
Proof.
  intros Ht Hc Hf Hne Hfree st'.
  assert (Hrun := case_connect_failure rev m fresh ssh st cfg text Hc Hf).
  assert (Hst' : ws_on_message rev (Parsed m) fresh ssh st = (Returned tt, st')).
  { subst st'. unfold exec. rewrite (ws_on_message_connect _ _ _ _ _ Ht).
    rewrite (try_catch_returned _ _ _ _ _ Hrun). reflexivity. }
  assert (Hval : st' = snd (case_connect rev m fresh ssh st)).
  { subst st'. unfold exec. rewrite (ws_on_message_connect _ _ _ _ _ Ht).
    rewrite (try_catch_returned _ _ _ _ _ Hrun). rewrite Hrun. reflexivity. }
  rewrite Hrun in Hval. simpl in Hval. clearbody st'.
  assert (Hbound : truthy (sessionId st') = Some fresh).
  { rewrite Hval. simpl.
    destruct (String.eqb_spec fresh EmptyString); congruence. }
  assert (Hshell : shell_at st' fresh = None).
  { rewrite Hval. unfold shell_at. simpl.
    destruct (connect_throws ssh).
    - rewrite Hfree. reflexivity.
    - rewrite lookup_insert_eq. reflexivity. }
  unfold outcome. rewrite Hst'. simpl.
  split; [reflexivity|]. split; [rewrite Hval; reflexivity|].
  split.
  { intros Hthrows. rewrite Hval. simpl.
    destruct (connect_throws ssh); [reflexivity | congruence]. }
  split; [rewrite Hval; reflexivity|]. split; [exact Hshell|].
  split; [|split].
  - intros m2 fresh2 ssh2 line Ht2 Hl. unfold exec.
    rewrite (ws_on_message_command _ _ _ _ _ Ht2).
    assert (Hcmd := case_command_run m2 st' fresh line Hbound Hl).
    rewrite Hshell, sendResponse_run in Hcmd.
    rewrite (try_catch_returned _ _ _ _ _ Hcmd). simpl. auto.
  - intros m2 fresh2 ssh2 Ht2. unfold exec.
    rewrite (ws_on_message_resize _ _ _ _ _ Ht2).
    rewrite (try_catch_returned _ _ _ _ _ (case_resize_run m2 st' fresh Hbound)).
    simpl. unfold resize_calls. rewrite Hshell, app_nil_r. auto.
  - intros m2 fresh2 ssh2 Ht2. unfold exec.
    rewrite (ws_on_message_disconnect _ _ _ _ _ Ht2).
    assert (Hdis := case_disconnect_run st'). rewrite Hbound in Hdis.
    rewrite sendResponse_run in Hdis.
    rewrite (try_catch_returned _ _ _ _ _ Hdis). simpl.
    destruct (closeSession_frame fresh st') as (_ & Hs & _ & Hr & Hw).
    rewrite Hw, Hs. unfold delivered. simpl. rewrite Hr.
    rewrite lookup_delete_eq. auto.
Qed.

Lemma connect_failure_response_witness :
  connect_failure rejecting_ssh = Some "SSH connection failed: bad credentials"
  /\ wire (exec (ws_on_message Revised (Parsed msg_connect) "k3x9" rejecting_ssh)
             st_idle)
     = [resp_error "SSH connection failed: bad credentials"]
  /\ sessionId (exec (ws_on_message Revised (Parsed msg_connect) "k3x9"
                        rejecting_ssh) st_idle)
     = Some "k3x9".
Proof.
  pose proof (connect_failure_response Revised msg_connect "k3x9" rejecting_ssh
                st_idle sample_config "SSH connection failed: bad credentials"
                eq_refl eq_refl eq_refl ltac:(discriminate) eq_refl)
    as (_ & Hw & _ & Hi & _).
  split; [reflexivity|]. split; [exact Hw | exact Hi].
Defined.

(** C2 as stated fails.  After a connect whose shell request is refused the
    session is still registered and the identifier is still bound; after a
    connect whose credentials are refused the identifier is still bound and
    a command is answered [Shell not available], where a connection with
    no identifier answers [No active session]. *)
Lemma failed_connect_keeps_identifier :
  (let st' := exec (ws_on_message Revised (Parsed msg_connect) "k3x9"
                      shell_less_ssh) st_idle in
   sessions st' !! "k3x9"
     = Some {| id := "k3x9"; connection := shell_less_ssh; shell := None;
               isConnected := true |}
   /\ sessionId st' = Some "k3x9")
  /\ (let st' := exec (ws_on_message Revised (Parsed msg_connect) "k3x9"
                         rejecting_ssh) st_idle in
      sessionId st' = Some "k3x9"
      /\ wire (exec (ws_on_message Revised (Parsed (msg_command "ls"))
                       EmptyString sample_ssh) st')
         = wire st' ++ [resp_error "Shell not available"])
  /\ wire (exec (ws_on_message Revised (Parsed (msg_command "ls"))
                   EmptyString sample_ssh) st_idle)
     = [resp_error "No active session"].
Proof. repeat split; vm_compute; reflexivity. Qed.

(** ** Session removal *)

(** C3.  The code at the failing input: on a registered session whose
    [shell.end()] throws, two successive [closeSession] calls make one
    call, [shell.end()], and never call [dispose()]; the throw leaves the
    [try] block before the line that disposes the connection.  The first
    call prints the error and unregisters the session, so the second
    finds nothing to release. *)
Lemma closeSession_twice_skips_dispose :
  sessions st_stuck !! "k3x9" = Some stuck_session
  /\ calls st_stuck = []
  /\ calls (exec (closeSession "k3x9") (exec (closeSession "k3x9") st_stuck))
     = [CEnd 2]
  /\ count_call is_dispose
       (calls (exec (closeSession "k3x9") (exec (closeSession "k3x9") st_stuck)))
     = 0%nat
  /\ console (exec (closeSession "k3x9") (exec (closeSession "k3x9") st_stuck))
     = [("Error closing session:", ErrorObj "write after end")]
  /\ sessions (exec (closeSession "k3x9") st_stuck) !! "k3x9" = None.
Proof. repeat split; vm_compute; reflexivity. Qed.

(** X22.  [closeSession] is idempotent and never releases twice: after one
    call a second call on the same identifier changes nothing at all;
    no call writes a response; and one call makes at most one
    [shell.end()] call and at most one [dispose()] call. *)
Theorem closeSession_idempotent (sid : string) (st : State) :
  let st1 := exec (closeSession sid) st in
  closeSession sid st1 = (Returned tt, st1)
  /\ wire st1 = wire st
  /\ exists new, calls st1 = calls st ++ new
                 /\ (count_call is_end new <= 1)%nat
                 /\ (count_call is_dispose new <= 1)%nat.
Proof.
  intros st1.
  assert (Hgone : sessions st1 !! sid = None).
  { subst st1. destruct (closeSession_frame sid st) as (_ & Hs & _).
    rewrite Hs. apply lookup_delete_eq. }
  split; [exact (closeSession_absent sid st1 Hgone)|]. split.
  { subst st1. apply closeSession_frame. }
  subst st1. unfold exec.
  destruct (sessions st !! sid) as [s|] eqn:Hs.
  - rewrite (closeSession_present _ _ _ Hs). simpl.
    exists (release_calls s). split; [reflexivity|].
    unfold release_calls.
    destruct (shell s) as [sh|]; simpl; [destruct (end_throws sh)|];
      simpl; split; auto.
  - rewrite (closeSession_absent _ _ Hs).
    exists []. rewrite app_nil_r. simpl. auto.
Qed.

(** The removal itself never answers, but a bridge may: after a disconnect
    message the identifier is unbound, and a close event that arrives
    later is answered by the original bridge with a second [disconnected]
    response, without any second removal. *)
Example late_close_after_disconnect :
  wire (exec (shell_on_close Original (ExitStatus 0) None)
          (exec (ws_on_message Original (Parsed (msg "disconnect")) EmptyString
                   sample_ssh) st_active))
  = [resp_disconnected; resp_disconnected].
Proof. vm_compute. reflexivity. Qed.

(** C6.  [closeSession] on a registered identifier returns without
    throwing and leaves the identifier unregistered, whatever
    [shell.end()] and [dispose()] do; what they throw is caught and
    printed. *)
Theorem closeSession_removes_despite_errors (sid : string) (s : SSHSession)
    (st : State) :
  sessions st !! sid = Some s ->
  let st' := exec (closeSession sid) st in
  outcome (closeSession sid) st = Returned tt
  /\ sessions st' !! sid = None
  /\ sessions st' = delete sid (sessions st)
  /\ console st' = console st ++
       match release_raises s with
       | Some e => [("Error closing session:", e)]
       | None => []
       end.
Proof.
  intros Hs st'. subst st'. unfold outcome, exec.
  rewrite (closeSession_present _ _ _ Hs). simpl.
  rewrite lookup_delete_eq. repeat split; reflexivity.
Qed.

Lemma closeSession_removes_despite_errors_witness :
  sessions st_stuck !! "k3x9" = Some stuck_session
  /\ release_raises stuck_session = Some (ErrorObj "write after end")
  /\ outcome (closeSession "k3x9") st_stuck = Returned tt
  /\ sessions (exec (closeSession "k3x9") st_stuck) !! "k3x9" = None
  /\ console (exec (closeSession "k3x9") st_stuck)
     = [("Error closing session:", ErrorObj "write after end")].
Proof.
  pose proof (closeSession_removes_despite_errors "k3x9" stuck_session st_stuck
                eq_refl) as (Ho & Hg & _ & Hc).
  split; [reflexivity|]. split; [reflexivity|].
  split; [exact Ho|]. split; [exact Hg | exact Hc].
Defined.

(** ** Messages *)

(** C7.  A resize message received while an identifier is bound is never
    answered: the wire, the registry and the bound identifier are left as
    they were and the handler returns.  A missing session, a missing shell
    and a [setWindow] that throws are printed, nothing more. *)
Theorem resize_never_answers (rev : Revision) (m : SSHMessage)
    (fresh : string) (ssh : NodeSSH) (st : State) (sid : string) :
  mtype m = Some "resize" ->
  truthy (sessionId st) = Some sid ->
  let st' := exec (ws_on_message rev (Parsed m) fresh ssh) st in
  outcome (ws_on_message rev (Parsed m) fresh ssh) st = Returned tt
  /\ wire st' = wire st
  /\ sessions st' = sessions st
  /\ sessionId st' = sessionId st
  /\ console st' = console st ++ resize_log st sid.
Proof.
  intros Ht Hb st'. subst st'. unfold outcome, exec.
  rewrite (ws_on_message_resize _ _ _ _ _ Ht).
  rewrite (try_catch_returned _ _ _ _ _ (case_resize_run m st sid Hb)).
  simpl. repeat split; reflexivity.
Qed.

Lemma resize_never_answers_witness :
  truthy (sessionId st_idle) = None
  /\ truthy (Some "k3x9") = Some "k3x9"
  /\ wire (exec (ws_on_message Revised (Parsed (msg_resize 120 40))
                   EmptyString sample_ssh)
             (set_sessionId (Some "k3x9") st_idle)) = []
  /\ console (exec (ws_on_message Revised (Parsed (msg_resize 120 40))
                      EmptyString sample_ssh)
                (set_sessionId (Some "k3x9") st_idle))
     = [("Resize error:", ErrorObj "Session or shell not found")].
Proof.
  pose proof (resize_never_answers Revised (msg_resize 120 40) EmptyString
                sample_ssh (set_sessionId (Some "k3x9") st_idle) "k3x9"
                eq_refl eq_refl)
    as (_ & Hw & _ & _ & Hc).
  split; [reflexivity|]. split; [reflexivity|].
  split; [exact Hw | exact Hc].
Defined.

(** C8.  A frame that does not parse as a client message is answered with
    exactly one [error] response, [Invalid message format]; the bound
    identifier, the registry and the socket's state are left as they were,
    no provider object is touched and the handler returns. *)
Theorem unparsable_frame_answered (rev : Revision) (frame : Frame)
    (fresh : string) (ssh : NodeSSH) (st : State) :
  parse_fails frame = true ->
  let st' := exec (ws_on_message rev frame fresh ssh) st in
  outcome (ws_on_message rev frame fresh ssh) st = Returned tt
  /\ wire st' = wire st ++ delivered st [resp_error "Invalid message format"]
  /\ sessionId st' = sessionId st
  /\ sessions st' = sessions st
  /\ readyState st' = readyState st
  /\ calls st' = calls st.
Proof.
  intros Hp st'. subst st'. unfold outcome, exec.
  destruct (ws_on_message_unparsed rev frame fresh ssh st Hp) as [e He].
  rewrite He. simpl. repeat split; reflexivity.
Qed.

Lemma unparsable_frame_answered_witness :
  parse_fails (Unparsable (ErrorObj "Unexpected token } in JSON")) = true
  /\ wire (exec (ws_on_message Original
                   (Unparsable (ErrorObj "Unexpected token } in JSON"))
                   EmptyString sample_ssh) st_active)
     = [resp_error "Invalid message format"]
  /\ sessions (exec (ws_on_message Original
                       (Unparsable (ErrorObj "Unexpected token } in JSON"))
                       EmptyString sample_ssh) st_active)
     = sessions st_active.
Proof.
  pose proof (unparsable_frame_answered Original
                (Unparsable (ErrorObj "Unexpected token } in JSON"))
                EmptyString sample_ssh st_active eq_refl) as (_ & Hw & _ & Hs & _).
  split; [reflexivity|]. split; [exact Hw | exact Hs].
Defined.

(** C9.  A command message whose command is the empty string, received
    while an identifier is bound, is answered [Command required] and
    reaches no channel: no call is made on any provider object. *)
Theorem empty_command_rejected (rev : Revision) (m : SSHMessage)
    (fresh : string) (ssh : NodeSSH) (st : State) (sid : string) :
  mtype m = Some "command" ->
  command m = Some EmptyString ->
  truthy (sessionId st) = Some sid ->
  let st' := exec (ws_on_message rev (Parsed m) fresh ssh) st in
  outcome (ws_on_message rev (Parsed m) fresh ssh) st = Returned tt
  /\ wire st' = wire st ++ delivered st [resp_error "Command required"]
  /\ calls st' = calls st
  /\ count_call is_write (calls st') = count_call is_write (calls st)
  /\ sessions st' = sessions st
  /\ sessionId st' = sessionId st.
Proof.
  intros Ht Hc Hb st'. subst st'. unfold outcome, exec.
  rewrite (ws_on_message_command _ _ _ _ _ Ht).
  assert (Hrun : case_command m st
                 = sendResponse (resp_error "Command required") st).
  { apply (case_command_empty m st sid Hb). rewrite Hc. reflexivity. }
  rewrite sendResponse_run in Hrun.
  rewrite (try_catch_returned _ _ _ _ _ Hrun). simpl.
  repeat split; reflexivity.
Qed.

Lemma empty_command_rejected_witness :
  command (msg_command EmptyString) = Some EmptyString
  /\ truthy (sessionId st_active) = Some "k3x9"
  /\ wire (exec (ws_on_message Revised (Parsed (msg_command EmptyString))
                   EmptyString sample_ssh) st_active)
     = [resp_error "Command required"]
  /\ calls (exec (ws_on_message Revised (Parsed (msg_command EmptyString))
                    EmptyString sample_ssh) st_active)
     = [].
Proof.
  pose proof (empty_command_rejected Revised (msg_command EmptyString)
                EmptyString sample_ssh st_active "k3x9"
                eq_refl eq_refl eq_refl)
    as (_ & Hw & Hc & _).
  split; [reflexivity|]. split; [reflexivity|].
  split; [exact Hw | exact Hc].
Defined.

(** C10.  A disconnect message received while no identifier is bound is
    answered with exactly one [disconnected] response, and nothing else
    changes: the registry in particular is left as it was. *)
Theorem disconnect_when_idle (rev : Revision) (m : SSHMessage)
    (fresh : string) (ssh : NodeSSH) (st : State) :
  mtype m = Some "disconnect" ->
  truthy (sessionId st) = None ->
  let st' := exec (ws_on_message rev (Parsed m) fresh ssh) st in
  outcome (ws_on_message rev (Parsed m) fresh ssh) st = Returned tt
  /\ wire st' = wire st ++ delivered st [resp_disconnected]
  /\ count_resp is_error (delivered st [resp_disconnected]) = 0%nat
  /\ sessions st' = sessions st
  /\ sessionId st' = sessionId st
  /\ calls st' = calls st.
Proof.
  intros Ht Hb st'. subst st'. unfold outcome, exec.
  rewrite (ws_on_message_disconnect _ _ _ _ _ Ht).
  assert (Hrun := case_disconnect_run st). rewrite Hb in Hrun.
  rewrite sendResponse_run in Hrun.
  rewrite (try_catch_returned _ _ _ _ _ Hrun). simpl.
  repeat split; try reflexivity.
  unfold delivered. destruct (is_open (readyState st)); reflexivity.
Qed.

Lemma disconnect_when_idle_witness :
  truthy (sessionId st_idle) = None
  /\ wire (exec (ws_on_message Original (Parsed (msg "disconnect"))
                   EmptyString sample_ssh) st_idle)
     = [resp_disconnected]
  /\ sessions (exec (ws_on_message Original (Parsed (msg "disconnect"))
                       EmptyString sample_ssh) st_idle)
     = sessions st_idle.
Proof.
  pose proof (disconnect_when_idle Original (msg "disconnect") EmptyString
                sample_ssh st_idle eq_refl eq_refl) as (_ & Hw & _ & Hs & _).
  split; [reflexivity|]. split; [exact Hw | exact Hs].
Defined.

(** ** Every event, every sequence of events *)

Lemma sessions_ok_insert ss k s :
  id s = k -> isConnected s = true -> sessions_ok ss ->
  sessions_ok (<[k := s]> ss).
Proof.
  intros Hi Hc Hok k' s' Hl.
  destruct (decide (k = k')) as [<-|Hne].
  - rewrite lookup_insert_eq in Hl. injection Hl as <-. auto.
  - rewrite lookup_insert_ne in Hl by exact Hne. eauto.
Qed.

Lemma sessions_ok_delete ss k : sessions_ok ss -> sessions_ok (delete k ss).
Proof.
  intros Hok k' s' Hl.
  destruct (decide (k = k')) as [<-|Hne].
  - rewrite lookup_delete_eq in Hl. discriminate.
  - rewrite lookup_delete_ne in Hl by exact Hne. eauto.
Qed.

Lemma contained_intro fresh st st' rs :
  readyState st' = readyState st ->
  wire st' = wire st ++ delivered st rs ->
  (length rs <= 1)%nat ->
  registry_step fresh st (sessions st') ->
  contained fresh st st'.
Proof.
  intros Hr Hw Hl Hs. split; [exact Hr|]. split; [eauto|].
  destruct Hs as [-> | [(sid & Hb & ->) | (f & s & Hf & Hi & Hc & ->)]].
  - auto.
  - split.
    + intros k _ Hk. apply lookup_delete_ne. congruence.
    + apply sessions_ok_delete.
  - split.
    + intros k Hk _. apply lookup_insert_ne. congruence.
    + apply sessions_ok_insert; assumption.
Qed.

(** A handler that returned in a state that differs from [st] by calls
    and printed lines only, or that ended with [sendResponse] there. *)
Lemma contained_same fresh st st' :
  readyState st' = readyState st -> wire st' = wire st ->
  sessions st' = sessions st -> contained fresh st st'.
Proof.
  intros Hr Hw Hs. apply (contained_intro fresh st st' []); auto.
  - rewrite Hw. unfold delivered. destruct (is_open _); rewrite app_nil_r; auto.
  - left. exact Hs.
Qed.

Lemma contained_send fresh st st1 r :
  readyState st1 = readyState st -> wire st1 = wire st ->
  registry_step fresh st (sessions st1) ->
  contained fresh st (exec (sendResponse r) st1).
Proof.
  intros Hr Hw Hs. unfold exec. rewrite sendResponse_run. simpl.
  apply (contained_intro fresh st _ [r]); simpl; auto.
  rewrite Hw. unfold delivered. rewrite Hr. reflexivity.
Qed.

Lemma sendResponse_returns r st : fst (sendResponse r st) = Returned tt.
Proof. rewrite sendResponse_run. reflexivity. Qed.

Lemma close_bound_contained fresh st st1 rs :
  readyState st1 = readyState st ->
  wire st1 = wire st ++ delivered st rs -> (length rs <= 1)%nat ->
  sessions st1 = sessions st -> sessionId st1 = sessionId st ->
  fst (close_bound st1) = Returned tt
  /\ contained fresh st (exec close_bound st1).
Proof.
  intros Hr Hw Hl Hs Hi.
  destruct (close_bound_frame st1) as (Ho & Hs' & _ & Hr' & Hw').
  split; [exact Ho|].
  apply (contained_intro fresh st _ rs); try congruence.
  rewrite Hs', Hi, Hs.
  destruct (truthy (sessionId st)) as [sid|] eqn:Hb.
  - right. left. eauto.
  - left. reflexivity.
Qed.

Lemma delivered_nil st : delivered st [] = [].
Proof. unfold delivered. destruct (is_open _); reflexivity. Qed.

Lemma try_catch_pass {A} (body : M A) handler st a :
  fst (body st) = Returned a -> try_catch body handler st = body st.
Proof.
  intros H. unfold try_catch. destruct (body st) as [[a'|e] st']; simpl in *.
  - reflexivity.
  - discriminate.
Qed.

Lemma has_type_true m tag : has_type m tag = true -> mtype m = Some tag.
Proof.
  unfold has_type. destruct (mtype m) as [t|]; [|discriminate].
  intros H. apply String.eqb_eq in H. congruence.
Qed.

Lemma case_command_unbound m st :
  truthy (sessionId st) = None ->
  case_command m st = sendResponse (resp_error "No active session") st.
Proof. intros H. unfold case_command, bind, get. rewrite H. reflexivity. Qed.

Lemma case_resize_unbound m st :
  truthy (sessionId st) = None ->
  case_resize m st = sendResponse (resp_error "No active session") st.
Proof. intros H. unfold case_resize, bind, get. rewrite H. reflexivity. Qed.

Lemma case_connect_no_config rev m fresh ssh st :
  config m = None ->
  case_connect rev m fresh ssh st
  = sendResponse (resp_error "SSH configuration required") st.
Proof. intros H. unfold case_connect. rewrite H. reflexivity. Qed.

Lemma connect_failure_none ssh :
  connect_failure ssh = None ->
  connect_throws ssh = None /\ exists sh, requestShell_result ssh = inr sh.
Proof.
  unfold connect_failure. destruct (connect_throws ssh); [discriminate|].
  destruct (requestShell_result ssh) as [e|sh]; [discriminate|]. eauto.
Qed.

Lemma ws_on_message_unknown rev m fresh ssh st :
  unknown_type m = true ->
  ws_on_message rev (Parsed m) fresh ssh st
  = sendResponse (resp_error "Unknown message type") st.
Proof.
  unfold unknown_type. intros H.
  unfold ws_on_message, try_catch, bind, parse, ret.
  destruct (has_type m "connect"); [discriminate|].
  destruct (has_type m "command"); [discriminate|].
  destruct (has_type m "resize"); [discriminate|].
  destruct (has_type m "disconnect"); [discriminate|].
  rewrite sendResponse_run. reflexivity.
Qed.

(** Each case of the [switch] returns and is contained. *)
Lemma case_connect_contained rev m fresh ssh st :
  fst (case_connect rev m fresh ssh st) = Returned tt
  /\ contained (Some fresh) st (exec (case_connect rev m fresh ssh) st).
Proof.
  unfold exec. destruct (config m) as [cfg|] eqn:Hc.
  - destruct (connect_failure ssh) as [text|] eqn:Hf.
    + rewrite (case_connect_failure rev m fresh ssh st cfg text Hc Hf). simpl.
      split; [reflexivity|].
      apply (contained_intro _ st _ [resp_error text]); simpl; auto.
      destruct (connect_throws ssh); [left; reflexivity|].
      right. right. eexists _, _. repeat split; reflexivity.
    + destruct (connect_failure_none ssh Hf) as (Ht & sh & Hr).
      rewrite (case_connect_success rev m fresh ssh st cfg sh Hc Ht Hr). simpl.
      split; [reflexivity|].
      apply (contained_intro _ st _ [connected_response rev (Some fresh)]);
        simpl; auto.
      right. right. eexists _, _. repeat split; reflexivity.
  - rewrite (case_connect_no_config _ _ _ _ _ Hc).
    split; [apply sendResponse_returns|].
    apply contained_send; auto. left. reflexivity.
Qed.

Lemma case_command_contained fresh m st :
  fst (case_command m st) = Returned tt
  /\ contained fresh st (exec (case_command m) st).
Proof.
  unfold exec. destruct (truthy (sessionId st)) as [sid|] eqn:Hb.
  - destruct (truthy (command m)) as [text|] eqn:Hc.
    + rewrite (case_command_run m st sid text Hb Hc).
      destruct (shell_at st sid) as [sh|].
      * destruct (write_throws sh) as [e|].
        -- split; [apply sendResponse_returns|].
           apply contained_send; auto. left. reflexivity.
        -- split; [reflexivity|]. apply contained_same; reflexivity.
      * split; [apply sendResponse_returns|].
        apply contained_send; auto. left. reflexivity.
    + rewrite (case_command_empty m st sid Hb Hc).
      split; [apply sendResponse_returns|].
      apply contained_send; auto. left. reflexivity.
  - rewrite (case_command_unbound m st Hb).
    split; [apply sendResponse_returns|].
    apply contained_send; auto. left. reflexivity.
Qed.

Lemma case_resize_contained fresh m st :
  fst (case_resize m st) = Returned tt
  /\ contained fresh st (exec (case_resize m) st).
Proof.
  unfold exec. destruct (truthy (sessionId st)) as [sid|] eqn:Hb.
  - rewrite (case_resize_run m st sid Hb). simpl.
    split; [reflexivity|]. apply contained_same; reflexivity.
  - rewrite (case_resize_unbound m st Hb).
    split; [apply sendResponse_returns|].
    apply contained_send; auto. left. reflexivity.
Qed.

Lemma case_disconnect_contained fresh st :
  fst (case_disconnect st) = Returned tt
  /\ contained fresh st (exec case_disconnect st).
Proof.
  unfold exec. rewrite case_disconnect_run.
  split; [apply sendResponse_returns|].
  destruct (truthy (sessionId st)) as [sid|] eqn:Hb.
  - destruct (closeSession_frame sid st) as (_ & Hs & _ & Hr & Hw).
    apply contained_send; simpl; auto.
    right. left. exists sid. auto.
  - apply contained_send; auto. left. reflexivity.
Qed.

Lemma ws_on_message_contained rev frame fresh ssh st :
  fst (ws_on_message rev frame fresh ssh st) = Returned tt
  /\ contained (Some fresh) st (exec (ws_on_message rev frame fresh ssh) st).
Proof.
  destruct (parse_fails frame) eqn:Hp.
  - destruct (ws_on_message_unparsed rev frame fresh ssh st Hp) as [e He].
    unfold exec. rewrite He. simpl. split; [reflexivity|].
    apply (contained_intro _ st _ [resp_error "Invalid message format"]);
      simpl; auto.
    left. reflexivity.
  - destruct frame as [e| |m]; try discriminate Hp.
    assert (Hpass : forall body : M unit,
      fst (body st) = Returned tt
      /\ contained (Some fresh) st (exec body st) ->
      fst (try_catch body
             (fun err => console_error "Message parsing error:" err ;;
                         sendResponse (resp_error "Invalid message format")) st)
        = Returned tt
      /\ contained (Some fresh) st
           (exec (try_catch body
             (fun err => console_error "Message parsing error:" err ;;
                         sendResponse (resp_error "Invalid message format"))) st)).
    { intros body [Hb Hc]. unfold exec.
      rewrite (try_catch_pass _ _ _ _ Hb). auto. }
    unfold exec, ws_on_message.
    change (parse (Parsed m)) with (@ret SSHMessage m).
    destruct (has_type m "connect") eqn:H1;
      [|destruct (has_type m "command") eqn:H2;
        [|destruct (has_type m "resize") eqn:H3;
          [|destruct (has_type m "disconnect") eqn:H4]]].
    + pose proof (Hpass _ (case_connect_contained rev m fresh ssh st)) as H.
      unfold exec, try_catch in *. unfold bind, ret. rewrite H1. exact H.
    + pose proof (Hpass _ (case_command_contained (Some fresh) m st)) as H.
      unfold exec, try_catch in *. unfold bind, ret. rewrite H1, H2. exact H.
    + pose proof (Hpass _ (case_resize_contained (Some fresh) m st)) as H.
      unfold exec, try_catch in *. unfold bind, ret. rewrite H1, H2, H3. exact H.
    + pose proof (Hpass _ (case_disconnect_contained (Some fresh) st)) as H.
      unfold exec, try_catch in *. unfold bind, ret.
      rewrite H1, H2, H3, H4. exact H.
    + assert (Hs : fst (sendResponse (resp_error "Unknown message type") st)
                   = Returned tt
                   /\ contained (Some fresh) st
                        (exec (sendResponse (resp_error "Unknown message type")) st)).
      { split; [apply sendResponse_returns|].
        apply contained_send; auto. left. reflexivity. }
      pose proof (Hpass _ Hs) as H.
      unfold exec, try_catch in *. unfold bind, ret.
      rewrite H1, H2, H3, H4. exact H.
Qed.

Lemma shell_on_data_contained fresh rev chunk st :
  fst (shell_on_data rev chunk st) = Returned tt
  /\ contained fresh st (exec (shell_on_data rev chunk) st).
Proof.
  unfold exec. destruct rev; simpl.
  - split; [apply sendResponse_returns|].
    apply contained_send; auto. left. reflexivity.
  - unfold bind, get. destruct (is_open (readyState st)).
    + split; [apply sendResponse_returns|].
      apply contained_send; auto. left. reflexivity.
    + split; [reflexivity|]. apply contained_same; reflexivity.
Qed.

Lemma notice_contained fresh r st :
  fst ((sendResponse r ;; close_bound) st) = Returned tt
  /\ contained fresh st (exec (sendResponse r ;; close_bound) st).
Proof.
  unfold exec, bind. rewrite sendResponse_run.
  apply (close_bound_contained fresh st _ [r]); simpl; auto.
Qed.

Lemma shell_on_close_contained fresh rev code signal st :
  fst (shell_on_close rev code signal st) = Returned tt
  /\ contained fresh st (exec (shell_on_close rev code signal) st).
Proof.
  destruct rev; simpl.
  - apply notice_contained.
  - destruct (unexpected_exit code).
    + apply notice_contained.
    + split; [reflexivity|]. apply contained_same; reflexivity.
Qed.

Lemma shell_on_error_contained fresh rev err st :
  fst (shell_on_error rev err st)
  = match err with
    | Nullish undef => Raised (type_error undef "message")
    | _ => Returned tt
    end
  /\ contained fresh st (exec (shell_on_error rev err) st).
Proof.
  assert (Hsent : forall text,
    fst ((sendResponse {| rtype := error; rdata := None; rerror := text;
                          rsessionId := None |} ;;
          match rev with Original => ret tt | Revised => close_bound end)
           (add_console
              ("Shell error for session " +:+ show_id (sessionId st) +:+ ":")
              err st)) = Returned tt
    /\ contained fresh st
         (exec (sendResponse {| rtype := error; rdata := None; rerror := text;
                                rsessionId := None |} ;;
                match rev with Original => ret tt | Revised => close_bound end)
            (add_console
               ("Shell error for session " +:+ show_id (sessionId st) +:+ ":")
               err st))).
  { intros text. unfold exec, bind. rewrite sendResponse_run. simpl.
    change (delivered (add_console _ _ st)) with (delivered st).
    destruct rev.
    - simpl. split; [reflexivity|].
      apply (contained_intro fresh st _
               [{| rtype := error; rdata := None; rerror := text;
                   rsessionId := None |}]); simpl; auto.
      left. reflexivity.
    - apply (close_bound_contained fresh st _
               [{| rtype := error; rdata := None; rerror := text;
                   rsessionId := None |}]); simpl; auto. }
  destruct err as [m| |undef].
  - apply (Hsent (Some m)).
  - apply (Hsent None).
  - split; [reflexivity|]. apply contained_same; reflexivity.
Qed.

Lemma printed_close_bound_contained fresh st st1 :
  readyState st1 = readyState st -> wire st1 = wire st ->
  sessions st1 = sessions st -> sessionId st1 = sessionId st ->
  fst (close_bound st1) = Returned tt
  /\ contained fresh st (exec close_bound st1).
Proof.
  intros Hr Hw Hs Hi.
  apply (close_bound_contained fresh st st1 []); auto.
  rewrite delivered_nil, app_nil_r. exact Hw.
Qed.

Lemma listeners_contained rev ev st :
  (forall r, ev <> WsState r) ->
  fst (emit rev ev st) = listeners_end ev
  /\ contained (fresh_of ev) st (exec (emit rev ev) st).
Proof.
  intros Hev.
  destruct ev as [frame fresh ssh| |err|chunk|code signal|owner err|r]; simpl.
  - apply ws_on_message_contained.
  - apply printed_close_bound_contained; reflexivity.
  - destruct rev.
    + unfold exec, ws_on_error, bind, console_error, modify.
      apply printed_close_bound_contained; reflexivity.
    + unfold exec, ws_debug_on_error, ws_on_error, bind, get, console_error,
        modify. simpl.
      destruct (truthy (sessionId st)); simpl;
        apply printed_close_bound_contained; reflexivity.
  - apply shell_on_data_contained.
  - apply shell_on_close_contained.
  - destruct rev.
    + apply shell_on_error_contained.
    + pose proof (shell_on_error_contained None Revised err
                    (add_console
                       ("SSH stream error for session " +:+ owner +:+ ":")
                       err st)) as [Ho Hc].
      unfold exec, stream_on_error, bind, console_error, modify in *.
      split; [exact Ho|].
      destruct Hc as (Hr & (rs & Hw & Hl) & Hf & Hk).
      split; [exact Hr|]. split; [exists rs; auto|]. split; auto.
  - destruct (Hev r). reflexivity.
Qed.

(** Every event: the listeners, and the socket's own moves. *)
Lemma emit_summary rev ev st :
  fst (emit rev ev st) = listeners_end ev
  /\ readyState (exec (emit rev ev) st) = readyState_after ev st
  /\ (exists rs, wire (exec (emit rev ev) st) = wire st ++ delivered st rs
                 /\ (length rs <= 1)%nat)
  /\ (forall k, fresh_of ev <> Some k -> truthy (sessionId st) <> Some k ->
        sessions (exec (emit rev ev) st) !! k = sessions st !! k)
  /\ (sessions_ok (sessions st) ->
      sessions_ok (sessions (exec (emit rev ev) st))).
Proof.
  destruct ev as [frame fresh ssh| |err|chunk|code signal|owner err|r];
    try (match goal with
         | |- context [emit _ ?ev] =>
             destruct (listeners_contained rev ev st ltac:(discriminate))
               as (Ho & Hr & Hw & Hf & Hk)
         end; split; [exact Ho|]; split; [exact Hr|]; auto).
  unfold exec. simpl. split; [reflexivity|]. split; [reflexivity|].
  split; [exists []; rewrite delivered_nil, app_nil_r; auto|]. auto.
Qed.

Lemma run_app rev evs1 evs2 st :
  run rev (evs1 ++ evs2) st = run rev evs2 (run rev evs1 st).
Proof. unfold run. apply fold_left_app. Qed.


(** X2.  Over any sequence of events the wire only grows, by at most one
    frame per event. *)
Theorem run_sends_at_most_one_frame_per_event (rev : Revision)
    (evs : list Event) (st : State) :
  exists rs, wire (run rev evs st) = wire st ++ rs
             /\ (length rs <= length evs)%nat.
Proof.
  revert st. induction evs as [|ev evs IH]; intros st.
  - exists []. simpl. rewrite app_nil_r. auto.
  - destruct (emit_summary rev ev st) as (_ & _ & (r1 & Hw & Hl) & _).
    destruct (IH (exec (emit rev ev) st)) as (r2 & Hw2 & Hl2).
    exists (delivered st r1 ++ r2). simpl. split.
    + change (run rev (ev :: evs) st) with (run rev evs (exec (emit rev ev) st)).
      rewrite Hw2, Hw, app_assoc. reflexivity.
    + rewrite length_app. unfold delivered.
      destruct (is_open (readyState st)); simpl; lia.
Qed.

(** X3.  While the socket is not open nothing is written: a sequence of
    events that starts with the socket not open, and in which the socket
    does not open, leaves the wire as it was. *)
Theorem run_writes_nothing_unless_open (rev : Revision) (evs : list Event)
    (st : State) :
  readyState st <> OPEN ->
  Forall keeps_shut evs ->
  wire (run rev evs st) = wire st.
Proof.
  revert st. induction evs as [|ev evs IH]; intros st Hno Hall.
  - reflexivity.
  - destruct (emit_summary rev ev st) as (_ & Hr & (r1 & Hw & _) & _).
    change (run rev (ev :: evs) st) with (run rev evs (exec (emit rev ev) st)).
    rewrite (delivered_not_open st r1 Hno), app_nil_r in Hw.
    inversion Hall as [|? ? Hev Hrest]; subst.
    rewrite IH; [exact Hw| |exact Hrest].
    rewrite Hr. destruct ev; simpl in *; assumption.
Qed.

Lemma run_writes_nothing_unless_open_witness :
  wire (run Revised
          [WsMessage (Parsed msg_connect) "k3x9" sample_ssh;
           ShellData "$ "; WsState CLOSED; WsClose;
           ShellClose (ExitStatus 1) None]
          (set_readyState CLOSING st_idle))
  = [].
Proof.
  apply (run_writes_nothing_unless_open Revised _
           (set_readyState CLOSING st_idle)).
  - discriminate.
  - repeat constructor; discriminate.
Defined.

(** X4.  An event touches at most two entries of the registry: the one of
    the identifier bound to the connection and the one of the identifier
    a connect message draws.  The sessions of other connections are left
    as they are. *)
Theorem emit_leaves_other_sessions (rev : Revision) (ev : Event)
    (st : State) (k : string) :
  fresh_of ev <> Some k ->
  truthy (sessionId st) <> Some k ->
  sessions (exec (emit rev ev) st) !! k = sessions st !! k.
Proof.
  intros Hf Hb. destruct (emit_summary rev ev st) as (_ & _ & _ & H & _).
  apply H; assumption.
Qed.

Lemma emit_leaves_other_sessions_witness :
  sessions (exec (emit Original (ShellClose (ExitStatus 0) None))
              (set_sessionId (Some "zz") st_active)) !! "k3x9"
  = Some sample_session.
Proof.
  rewrite (emit_leaves_other_sessions Original (ShellClose (ExitStatus 0) None)
             (set_sessionId (Some "zz") st_active) "k3x9");
    [reflexivity | discriminate | discriminate].
Defined.

(** X5.  The registry stays in order over any sequence of events: every
    session is registered under its own [id] and is marked connected. *)
Theorem run_keeps_registry_in_order (rev : Revision) (evs : list Event)
    (st : State) :
  sessions_ok (sessions st) -> sessions_ok (sessions (run rev evs st)).
Proof.
  revert st. induction evs as [|ev evs IH]; intros st Hok.
  - exact Hok.
  - change (run rev (ev :: evs) st) with (run rev evs (exec (emit rev ev) st)).
    apply IH. destruct (emit_summary rev ev st) as (_ & _ & _ & _ & H).
    apply H. exact Hok.
Qed.

Lemma run_keeps_registry_in_order_witness :
  sessions_ok
    (sessions (run Revised
                 [WsMessage (Parsed msg_connect) "k3x9" sample_ssh;
                  WsMessage (Parsed msg_connect) "p7" other_ssh;
                  ShellError "k3x9" (ErrorObj "ECONNRESET")]
                 st_idle)).
Proof.
  apply run_keeps_registry_in_order.
  intros k s H. unfold st_idle in H. simpl in H.
  rewrite lookup_empty in H. discriminate.
Defined.

(** X6.  A [data] event is answered the same way by both bridges: the
    chunk is handed to [sendResponse] unchanged as one [data] response,
    and nothing else changes.  The second test of [ws.readyState] in the
    revised bridge makes no difference. *)
Theorem shell_on_data_forwards (rev : Revision) (chunk : string)
    (st : State) :
  shell_on_data rev chunk st =
    (Returned tt,
     {| sessions := sessions st; sessionId := sessionId st;
        readyState := readyState st;
        wire := wire st ++ delivered st [resp_data chunk];
        calls := calls st; console := console st |}).
Proof.
  destruct rev; simpl.
  - apply sendResponse_run.
  - unfold bind, get. destruct (is_open (readyState st)) eqn:Ho.
    + apply sendResponse_run.
    + unfold ret, delivered. rewrite Ho, app_nil_r.
      destruct st; reflexivity.
Qed.

(** ** The command, resize, connect and disconnect cases *)

(** X7.  A command with a text, received while a session with a shell is
    bound, is written to that shell unchanged, once; when the write
    returns nothing is answered and nothing else changes. *)
Theorem command_forwarded (rev : Revision) (m : SSHMessage) (fresh : string)
    (ssh : NodeSSH) (st : State) (sid text : string) (sh : Channel) :
  mtype m = Some "command" ->
  truthy (sessionId st) = Some sid ->
  truthy (command m) = Some text ->
  shell_at st sid = Some sh ->
  write_throws sh = None ->
  ws_on_message rev (Parsed m) fresh ssh st
  = (Returned tt, add_call (CWrite (chan sh) text) st).
Proof.
  intros Ht Hb Hc Hs Hw.
  rewrite (ws_on_message_command _ _ _ _ _ Ht).
  apply try_catch_returned.
  rewrite (case_command_run m st sid text Hb Hc), Hs, Hw. reflexivity.
Qed.

Lemma command_forwarded_witness :
  exec (ws_on_message Revised (Parsed (msg_command "ls -la")) EmptyString
          sample_ssh) st_active
  = add_call (CWrite 1 "ls -la") st_active.
Proof.
  unfold exec.
  rewrite (command_forwarded Revised (msg_command "ls -la") EmptyString
             sample_ssh st_active "k3x9" "ls -la" sample_channel
             eq_refl eq_refl eq_refl eq_refl eq_refl).
  reflexivity.
Defined.

(** X8.  When the write on the shell throws, the command is answered with
    one [error] response carrying the thrown error's message ([Command
    failed] when what was thrown is not an [Error]) and the error is
    printed; the session stays registered and bound. *)
Theorem command_write_failure (rev : Revision) (m : SSHMessage)
    (fresh : string) (ssh : NodeSSH) (st : State) (sid text : string)
    (sh : Channel) (e : Thrown) :
  mtype m = Some "command" ->
  truthy (sessionId st) = Some sid ->
  truthy (command m) = Some text ->
  shell_at st sid = Some sh ->
  write_throws sh = Some e ->
  ws_on_message rev (Parsed m) fresh ssh st =
    (Returned tt,
     {| sessions := sessions st; sessionId := sessionId st;
        readyState := readyState st;
        wire := wire st
                ++ delivered st [resp_error (message_or e "Command failed")];
        calls := calls st ++ [CWrite (chan sh) text];
        console := console st ++ [("Command execution error:", e)] |}).
Proof.
  intros Ht Hb Hc Hs Hw.
  rewrite (ws_on_message_command _ _ _ _ _ Ht).
  apply try_catch_returned.
  rewrite (case_command_run m st sid text Hb Hc), Hs, Hw.
  rewrite sendResponse_run. reflexivity.
Qed.

Lemma command_write_failure_witness :
  wire (exec (ws_on_message Original (Parsed (msg_command "ls")) EmptyString
                sample_ssh)
          st_other)
  = [resp_error "write EPIPE"].
Proof.
  unfold exec.
  rewrite (command_write_failure Original (msg_command "ls") EmptyString
             sample_ssh st_other "p7" "ls" other_channel
             (ErrorObj "write EPIPE")
             eq_refl eq_refl eq_refl eq_refl eq_refl).
  reflexivity.
Defined.

(** X9.  A command with a text, received while an identifier is bound
    under which no session, or a session without a shell, is registered,
    is answered [Shell not available]; nothing is written to any channel
    and nothing else changes. *)
Theorem command_without_shell (rev : Revision) (m : SSHMessage)
    (fresh : string) (ssh : NodeSSH) (st : State) (sid text : string) :
  mtype m = Some "command" ->
  truthy (sessionId st) = Some sid ->
  truthy (command m) = Some text ->
  shell_at st sid = None ->
  ws_on_message rev (Parsed m) fresh ssh st =
    (Returned tt,
     {| sessions := sessions st; sessionId := sessionId st;
        readyState := readyState st;
        wire := wire st ++ delivered st [resp_error "Shell not available"];
        calls := calls st; console := console st |}).
Proof.
  intros Ht Hb Hc Hs.
  rewrite (ws_on_message_command _ _ _ _ _ Ht).
  apply try_catch_returned.
  rewrite (case_command_run m st sid text Hb Hc), Hs.
  apply sendResponse_run.
Qed.

Lemma command_without_shell_witness :
  wire (exec (ws_on_message Original (Parsed (msg_command "ls")) EmptyString
                sample_ssh) (set_sessionId (Some "gone") st_active))
  = [resp_error "Shell not available"].
Proof.
  unfold exec.
  rewrite (command_without_shell Original (msg_command "ls") EmptyString
             sample_ssh (set_sessionId (Some "gone") st_active) "gone" "ls"
             eq_refl eq_refl eq_refl eq_refl).
  reflexivity.
Defined.

Lemma ws_on_message_unbound rev m fresh ssh st :
  mtype m = Some "command" \/ mtype m = Some "resize" ->
  truthy (sessionId st) = None ->
  ws_on_message rev (Parsed m) fresh ssh st =
    (Returned tt,
     {| sessions := sessions st; sessionId := sessionId st;
        readyState := readyState st;
        wire := wire st ++ delivered st [resp_error "No active session"];
        calls := calls st; console := console st |}).
Proof.
  intros [Ht|Ht] Hb.
  - rewrite (ws_on_message_command _ _ _ _ _ Ht).
    apply try_catch_returned.
    rewrite (case_command_unbound m st Hb). apply sendResponse_run.
  - rewrite (ws_on_message_resize _ _ _ _ _ Ht).
    apply try_catch_returned.
    rewrite (case_resize_unbound m st Hb). apply sendResponse_run.
Qed.

(** X10.  The test of the bound identifier comes first: while no
    identifier is bound, a command or a resize message is answered
    [No active session] whatever else it carries (an empty command
    included), and nothing else changes. *)
Theorem no_active_session (rev : Revision) (m : SSHMessage) (fresh : string)
    (ssh : NodeSSH) (st : State) :
  mtype m = Some "command" \/ mtype m = Some "resize" ->
  truthy (sessionId st) = None ->
  ws_on_message rev (Parsed m) fresh ssh st =
    (Returned tt,
     {| sessions := sessions st; sessionId := sessionId st;
        readyState := readyState st;
        wire := wire st ++ delivered st [resp_error "No active session"];
        calls := calls st; console := console st |}).
Proof. apply ws_on_message_unbound. Qed.

Lemma no_active_session_witness :
  wire (exec (ws_on_message Original (Parsed (msg_command EmptyString))
                EmptyString sample_ssh) st_idle)
  = [resp_error "No active session"].
Proof.
  unfold exec.
  rewrite (no_active_session Original (msg_command EmptyString) EmptyString
             sample_ssh st_idle (or_introl eq_refl) eq_refl).
  reflexivity.
Defined.

(** X11.  A resize message received while a session with a shell is bound
    calls [setWindow] on that shell exactly once, rows first, with 80
    columns and 24 rows standing in for a missing or zero value; whether
    [setWindow] returns or throws, nothing is answered and the session
    stays as it is. *)
Theorem resize_forwarded (rev : Revision) (m : SSHMessage) (fresh : string)
    (ssh : NodeSSH) (st : State) (sid : string) (sh : Channel) :
  mtype m = Some "resize" ->
  truthy (sessionId st) = Some sid ->
  shell_at st sid = Some sh ->
  let st' := exec (ws_on_message rev (Parsed m) fresh ssh) st in
  calls st' = calls st
              ++ [CSetWindow (chan sh)
                    (match rows m with
                     | Some r => if Z.eqb r 0 then 24 else r
                     | None => 24
                     end)
                    (match cols m with
                     | Some c => if Z.eqb c 0 then 80 else c
                     | None => 80
                     end)]
  /\ wire st' = wire st
  /\ sessions st' = sessions st
  /\ sessionId st' = sessionId st.
Proof.
  intros Ht Hb Hs st'. subst st'. unfold exec.
  rewrite (ws_on_message_resize _ _ _ _ _ Ht).
  rewrite (try_catch_returned _ _ _ _ _ (case_resize_run m st sid Hb)).
  simpl. unfold resize_calls. rewrite Hs. auto.
Qed.

Lemma resize_forwarded_witness :
  calls (exec (ws_on_message Revised (Parsed (msg_resize 0 40)) EmptyString
                 sample_ssh) st_active)
  = [CSetWindow 1 40 80].
Proof.
  exact (proj1 (resize_forwarded Revised (msg_resize 0 40) EmptyString
                  sample_ssh st_active "k3x9" sample_channel
                  eq_refl eq_refl eq_refl)).
Defined.

(** X12.  A connect message without a configuration is answered
    [SSH configuration required] before anything is done: no identifier is
    drawn, the provider is not called, and a session already bound stays
    bound and registered. *)
Theorem connect_without_config (rev : Revision) (m : SSHMessage)
    (fresh : string) (ssh : NodeSSH) (st : State) :
  mtype m = Some "connect" ->
  config m = None ->
  ws_on_message rev (Parsed m) fresh ssh st =
    (Returned tt,
     {| sessions := sessions st; sessionId := sessionId st;
        readyState := readyState st;
        wire := wire st
                ++ delivered st [resp_error "SSH configuration required"];
        calls := calls st; console := console st |}).
Proof.
  intros Ht Hc.
  rewrite (ws_on_message_connect _ _ _ _ _ Ht).
  apply try_catch_returned.
  rewrite (case_connect_no_config _ _ _ _ _ Hc). apply sendResponse_run.
Qed.

Lemma connect_without_config_witness :
  wire (exec (ws_on_message Revised (Parsed (msg "connect")) "p7" other_ssh)
          st_active)
  = [resp_error "SSH configuration required"]
  /\ sessionId (exec (ws_on_message Revised (Parsed (msg "connect")) "p7"
                        other_ssh) st_active)
     = Some "k3x9".
Proof.
  unfold exec.
  rewrite (connect_without_config Revised (msg "connect") "p7" other_ssh
             st_active eq_refl eq_refl).
  split; reflexivity.
Defined.

(** X13.  A message whose [type] is none of [connect], [command],
    [resize] and [disconnect] (or is missing) is answered
    [Unknown message type], and nothing else changes. *)
Theorem unknown_type_answered (rev : Revision) (m : SSHMessage)
    (fresh : string) (ssh : NodeSSH) (st : State) :
  unknown_type m = true ->
  ws_on_message rev (Parsed m) fresh ssh st =
    (Returned tt,
     {| sessions := sessions st; sessionId := sessionId st;
        readyState := readyState st;
        wire := wire st ++ delivered st [resp_error "Unknown message type"];
        calls := calls st; console := console st |}).
Proof.
  intros Hu. rewrite (ws_on_message_unknown _ _ _ _ _ Hu).
  apply sendResponse_run.
Qed.

Lemma unknown_type_answered_witness :
  wire (exec (ws_on_message Revised (Parsed (msg "Connect")) "p7" other_ssh)
          st_active)
  = [resp_error "Unknown message type"].
Proof.
  unfold exec.
  rewrite (unknown_type_answered Revised (msg "Connect") "p7" other_ssh
             st_active eq_refl).
  reflexivity.
Defined.

(** ** Teardown: disconnect, socket close, error followed by close *)

Lemma close_bound_explicit st :
  close_bound st =
    (Returned tt,
     {| sessions :=
          match truthy (sessionId st) with
          | Some sid => delete sid (sessions st)
          | None => sessions st
          end;
        sessionId := sessionId st; readyState := readyState st;
        wire := wire st;
        calls := calls st ++ from_option release_calls [] (bound_session st);
        console := console st ++ from_option release_log [] (bound_session st)
     |}).
Proof.
  rewrite close_bound_run. unfold bound_session.
  destruct (truthy (sessionId st)) as [sid|].
  - destruct (sessions st !! sid) as [s|] eqn:Hs.
    + rewrite (closeSession_present _ _ _ Hs). reflexivity.
    + rewrite (closeSession_absent _ _ Hs). simpl.
      rewrite (delete_id _ _ Hs), !app_nil_r. destruct st; reflexivity.
  - simpl. rewrite !app_nil_r. destruct st; reflexivity.
Qed.

Lemma ws_on_message_disconnect_bound rev m fresh ssh st sid :
  mtype m = Some "disconnect" ->
  truthy (sessionId st) = Some sid ->
  ws_on_message rev (Parsed m) fresh ssh st =
    (Returned tt,
     {| sessions := delete sid (sessions st); sessionId := None;
        readyState := readyState st;
        wire := wire st ++ delivered st [resp_disconnected];
        calls := calls st ++ from_option release_calls [] (sessions st !! sid);
        console := console st
                   ++ from_option release_log [] (sessions st !! sid) |}).
Proof.
  intros Ht Hb.
  rewrite (ws_on_message_disconnect _ _ _ _ _ Ht).
  apply try_catch_returned.
  rewrite case_disconnect_run, Hb, sendResponse_run. unfold exec.
  destruct (sessions st !! sid) as [s|] eqn:Hs.
  - rewrite (closeSession_present _ _ _ Hs). reflexivity.
  - rewrite (closeSession_absent _ _ Hs). simpl.
    rewrite (delete_id _ _ Hs), !app_nil_r. reflexivity.
Qed.

(** X14.  A disconnect message received while an identifier is bound
    removes the session registered under it (releasing its shell and
    connection as [closeSession] does), unbinds the identifier and is
    answered with one [disconnected] response; a command or resize
    message that follows is answered [No active session]. *)
Theorem disconnect_releases_and_unbinds (rev : Revision) (m : SSHMessage)
    (fresh : string) (ssh : NodeSSH) (st : State) (sid : string) :
  mtype m = Some "disconnect" ->
  truthy (sessionId st) = Some sid ->
  let st' := exec (ws_on_message rev (Parsed m) fresh ssh) st in
  wire st' = wire st ++ delivered st [resp_disconnected]
  /\ sessionId st' = None
  /\ sessions st' = delete sid (sessions st)
  /\ calls st' = calls st
                 ++ match sessions st !! sid with
                    | Some s => release_calls s
                    | None => []
                    end
  /\ (forall m2 fresh2 ssh2,
        mtype m2 = Some "command" \/ mtype m2 = Some "resize" ->
        wire (exec (ws_on_message rev (Parsed m2) fresh2 ssh2) st')
        = wire st' ++ delivered st' [resp_error "No active session"]).
Proof.
  intros Ht Hb st'. subst st'. unfold exec.
  rewrite (ws_on_message_disconnect_bound _ _ _ _ _ _ Ht Hb). simpl.
  split; [reflexivity|]. split; [reflexivity|]. split; [reflexivity|].
  split.
  - destruct (sessions st !! sid); reflexivity.
  - intros m2 fresh2 ssh2 Ht2.
    erewrite ws_on_message_unbound; [reflexivity | exact Ht2 | reflexivity].
Qed.

Lemma disconnect_releases_and_unbinds_witness :
  calls (exec (ws_on_message Original (Parsed (msg "disconnect")) EmptyString
                 sample_ssh) st_active)
  = [CEnd 1; CDispose 1]
  /\ sessionId (exec (ws_on_message Original (Parsed (msg "disconnect"))
                        EmptyString sample_ssh) st_active)
     = None.
Proof.
  pose proof (disconnect_releases_and_unbinds Original (msg "disconnect")
                EmptyString sample_ssh st_active "k3x9" eq_refl eq_refl)
    as (_ & Hi & _ & Hc & _).
  split; [exact Hc | exact Hi].
Defined.

(** X15.  When the socket closes, the session registered under the bound
    identifier is removed and released and nothing is written; the
    identifier itself stays bound, and a second close changes nothing. *)
Theorem ws_on_close_cleans_up_once (st : State) :
  let st1 := exec ws_on_close st in
  ws_on_close st1 = (Returned tt, st1)
  /\ wire st1 = wire st
  /\ sessionId st1 = sessionId st
  /\ sessions st1 = match truthy (sessionId st) with
                    | Some sid => delete sid (sessions st)
                    | None => sessions st
                    end
  /\ calls st1 = calls st
                 ++ match bound_session st with
                    | Some s => release_calls s
                    | None => []
                    end.
Proof.
  intros st1. subst st1. unfold ws_on_close, exec.
  rewrite (close_bound_explicit st). simpl.
  split.
  - rewrite close_bound_explicit. unfold bound_session. simpl.
    destruct (truthy (sessionId st)) as [sid|].
    + rewrite lookup_delete_eq, delete_delete_eq. simpl.
      rewrite !app_nil_r. reflexivity.
    + simpl. rewrite !app_nil_r. reflexivity.
  - split; [reflexivity|]. split; [reflexivity|]. split; [reflexivity|].
    destruct (bound_session st); reflexivity.
Qed.



(** ** Sessions a connection leaves behind *)

Lemma ws_on_message_connect_success rev m fresh ssh st cfg sh :
  mtype m = Some "connect" -> config m = Some cfg ->
  connect_throws ssh = None -> requestShell_result ssh = inr sh ->
  exec (ws_on_message rev (Parsed m) fresh ssh) st =
    {| sessions := <[fresh := new_session fresh ssh sh]> (sessions st);
       sessionId := Some fresh;
       readyState := readyState st;
       wire := wire st ++ delivered st [connected_response rev (Some fresh)];
       calls := calls st ++ [CConnect (conn ssh) (connect_options cfg);
                             CRequestShell (conn ssh) 80 24];
       console := console st |}.
Proof.
  intros Ht Hc Hok Hsh. unfold exec.
  rewrite (ws_on_message_connect _ _ _ _ _ Ht).
  rewrite (try_catch_returned _ _ _ _ _
             (case_connect_success rev m fresh ssh st cfg sh Hc Hok Hsh)).
  reflexivity.
Qed.

(** X17.  A second connect on the same connection binds the new
    identifier and forgets the first: a disconnect that follows removes
    and releases the second session only.  The first session stays
    registered, its shell is never ended and its connection is never
    disposed, and the connection has no identifier left to reach it. *)
Theorem reconnect_forgets_first_session (rev : Revision)
    (m1 m2 m3 : SSHMessage) (fresh1 fresh2 fresh3 : string)
    (ssh1 ssh2 ssh3 : NodeSSH) (cfg1 cfg2 : SSHConnectionConfig)
    (sh1 sh2 : Channel) (st : State) :
  mtype m1 = Some "connect" -> config m1 = Some cfg1 ->
  connect_throws ssh1 = None -> requestShell_result ssh1 = inr sh1 ->
  mtype m2 = Some "connect" -> config m2 = Some cfg2 ->
  connect_throws ssh2 = None -> requestShell_result ssh2 = inr sh2 ->
  mtype m3 = Some "disconnect" ->
  fresh1 <> fresh2 -> fresh2 <> EmptyString ->
  let st' := run rev [WsMessage (Parsed m1) fresh1 ssh1;
                      WsMessage (Parsed m2) fresh2 ssh2;
                      WsMessage (Parsed m3) fresh3 ssh3] st in
  sessions st' !! fresh1 = Some (new_session fresh1 ssh1 sh1)
  /\ sessions st' !! fresh2 = None
  /\ sessionId st' = None
  /\ calls st' = calls st
                 ++ [CConnect (conn ssh1) (connect_options cfg1);
                     CRequestShell (conn ssh1) 80 24;
                     CConnect (conn ssh2) (connect_options cfg2);
                     CRequestShell (conn ssh2) 80 24]
                 ++ release_calls (new_session fresh2 ssh2 sh2).
Proof.
  intros Ht1 Hc1 Ho1 Hs1 Ht2 Hc2 Ho2 Hs2 Ht3 Hne Hnz st'. subst st'.
  unfold run. simpl.
  rewrite (ws_on_message_connect_success rev m1 fresh1 ssh1 st cfg1 sh1)
    by assumption.
  rewrite (ws_on_message_connect_success rev m2 fresh2 ssh2 _ cfg2 sh2)
    by assumption.
  unfold exec.
  erewrite (ws_on_message_disconnect_bound rev m3 fresh3 ssh3 _ fresh2 Ht3).
  2: { simpl. destruct (String.eqb_spec fresh2 EmptyString); congruence. }
  simpl. rewrite lookup_insert_eq. simpl.
  rewrite lookup_delete_eq, delete_insert_eq.
  rewrite lookup_delete_ne by congruence. rewrite lookup_insert_eq.
  rewrite <- !app_assoc. auto.
Qed.

Lemma reconnect_forgets_first_session_witness :
  sessions (run Revised [WsMessage (Parsed msg_connect) "k3x9" sample_ssh;
                         WsMessage (Parsed msg_connect) "p7" other_ssh;
                         WsMessage (Parsed (msg "disconnect")) EmptyString
                           sample_ssh] st_idle) !! "k3x9"
  = Some sample_session.
Proof.
  exact (proj1 (reconnect_forgets_first_session Revised msg_connect
                  msg_connect (msg "disconnect") "k3x9" "p7" EmptyString
                  sample_ssh other_ssh sample_ssh sample_config sample_config
                  sample_channel other_channel st_idle
                  eq_refl eq_refl eq_refl eq_refl eq_refl eq_refl eq_refl
                  eq_refl eq_refl ltac:(discriminate) ltac:(discriminate))).
Defined.

(** X18.  The session a connect leaves registered when the shell request
    is refused is not lost: as long as no other connect has replaced the
    identifier, the close of the socket removes it and disposes its
    connection. *)
Theorem leftover_session_closed_with_socket (rev : Revision)
    (m : SSHMessage) (fresh : string) (ssh : NodeSSH)
    (cfg : SSHConnectionConfig) (e : Thrown) (st : State) :
  mtype m = Some "connect" -> config m = Some cfg ->
  connect_throws ssh = None -> requestShell_result ssh = inl e ->
  fresh <> EmptyString ->
  let st1 := run rev [WsMessage (Parsed m) fresh ssh] st in
  let st2 := run rev [WsMessage (Parsed m) fresh ssh; WsClose] st in
  sessions st1 !! fresh
  = Some {| id := fresh; connection := ssh; shell := None;
            isConnected := true |}
  /\ sessions st2 !! fresh = None
  /\ calls st2 = calls st ++ [CConnect (conn ssh) (connect_options cfg);
                              CRequestShell (conn ssh) 80 24;
                              CDispose (conn ssh)]
  /\ wire st2 = wire st1.
Proof.
  intros Ht Hc Ho Hs Hnz st1 st2. subst st1 st2. unfold run. simpl.
  assert (Hf : connect_failure ssh
               = Some ("Failed to create shell: "
                       +:+ message_or e "Unknown error")).
  { unfold connect_failure. rewrite Ho, Hs. reflexivity. }
  assert (Hrun : exec (ws_on_message rev (Parsed m) fresh ssh) st
                 = snd (case_connect rev m fresh ssh st)).
  { unfold exec. rewrite (ws_on_message_connect _ _ _ _ _ Ht).
    rewrite (try_catch_returned _ _ _ _ _
               (case_connect_failure rev m fresh ssh st cfg _ Hc Hf)).
    rewrite (case_connect_failure rev m fresh ssh st cfg _ Hc Hf).
    reflexivity. }
  rewrite Hrun, (case_connect_failure rev m fresh ssh st cfg _ Hc Hf).
  simpl. rewrite Ho. rewrite lookup_insert_eq.
  split; [reflexivity|].
  unfold exec, ws_on_close. rewrite close_bound_explicit. simpl.
  unfold bound_session. simpl.
  destruct (String.eqb_spec fresh EmptyString) as [E|_]; [congruence|].
  rewrite lookup_delete_eq, lookup_insert_eq. simpl.
  rewrite <- app_assoc. auto.
Qed.

Lemma leftover_session_closed_with_socket_witness :
  calls (run Original [WsMessage (Parsed msg_connect) "k3x9" shell_less_ssh;
                       WsClose] st_idle)
  = [CConnect 4 sample_config; CRequestShell 4 80 24; CDispose 4].
Proof.
  pose proof (leftover_session_closed_with_socket Original msg_connect "k3x9"
                shell_less_ssh sample_config
                (ErrorObj "channel open failure") st_idle
                eq_refl eq_refl eq_refl eq_refl ltac:(discriminate))
    as (_ & _ & Hc & _).
  exact Hc.
Defined.

(** ** The manager on its own *)

(** X19.  [executeCommand] never changes the state.  For an identifier
    that is not registered it throws [Session not found or not connected]
    whatever the provider would answer; for a registered session it
    returns the provider's [stdout] and [stderr], or throws
    [Command execution failed: ] followed by the provider's message
    ([Unknown error] when what was thrown is not an [Error]). *)
Theorem executeCommand_outcomes
    (execCommand : NodeSSH -> string -> Thrown + ExecResult)
    (sid line : string) (st : State) :
  exec (executeCommand execCommand sid line) st = st
  /\ outcome (executeCommand execCommand sid line) st =
       match sessions st !! sid with
       | None => Raised (ErrorObj "Session not found or not connected")
       | Some s =>
           if isConnected s then
             match execCommand (connection s) line with
             | inr result => Returned result
             | inl e =>
                 Raised (ErrorObj ("Command execution failed: "
                                   +:+ message_or e "Unknown error"))
             end
           else Raised (ErrorObj "Session not found or not connected")
       end.
Proof.
  unfold exec, outcome, executeCommand, sessions_get, bind, get.
  destruct (sessions st !! sid) as [s|]; simpl; [|auto].
  destruct (isConnected s); simpl; [|auto].
  unfold try_catch.
  destruct (execCommand (connection s) line) as [e|[out err]]; simpl; auto.
Qed.

(** X20.  [createSession] calls [ssh.connect] once, with the
    configuration it was given and port 22 standing in for port 0.  When
    the provider rejects, it throws [SSH connection failed: ] followed by
    the provider's message and registers nothing; when the provider
    accepts, it registers a connected session without a shell under the
    identifier, replacing whatever was registered there. *)
Theorem createSession_outcomes (sid : string) (cfg : SSHConnectionConfig)
    (ssh : NodeSSH) (st : State) :
  let st' := exec (createSession sid cfg ssh) st in
  calls st' = calls st
              ++ [CConnect (conn ssh)
                    {| host := host cfg;
                       port := if Z.eqb (port cfg) 0 then 22 else port cfg;
                       username := username cfg; password := password cfg;
                       privateKey := privateKey cfg;
                       passphrase := passphrase cfg |}]
  /\ wire st' = wire st
  /\ match connect_throws ssh with
     | Some e =>
         outcome (createSession sid cfg ssh) st
         = Raised (ErrorObj ("SSH connection failed: "
                             +:+ message_or e "Unknown error"))
         /\ sessions st' = sessions st
     | None =>
         outcome (createSession sid cfg ssh) st
         = Returned {| id := sid; connection := ssh; shell := None;
                       isConnected := true |}
         /\ sessions st'
            = <[sid := {| id := sid; connection := ssh; shell := None;
                          isConnected := true |}]> (sessions st)
     end.
Proof.
  unfold exec, outcome, createSession, try_catch, bind, invoke, modify, ret,
    throw.
  destruct (connect_throws ssh); simpl; auto.
Qed.

(** X21.  The life of a session in the manager: once [createSession] and
    [createShell] have succeeded, [getSession] returns the session with
    its connection and its shell; once [closeSession] has run,
    [getSession] returns nothing, [createShell] throws
    [Session not found or not connected] and [resizeShell] throws
    [Session or shell not found], both without calling the provider. *)
Theorem manager_session_life (rev : Revision) (sid : string)
    (cfg : SSHConnectionConfig) (ssh : NodeSSH) (sh : Channel)
    (c r : Z) (st : State) :
  connect_throws ssh = None ->
  requestShell_result ssh = inr sh ->
  let st1 := exec (createSession sid cfg ssh ;; createShell rev sid c r) st in
  let st2 := exec (closeSession sid) st1 in
  outcome (createSession sid cfg ssh ;; createShell rev sid c r) st
  = Returned sh
  /\ outcome (getSession sid) st1 = Returned (Some (new_session sid ssh sh))
  /\ outcome (getSession sid) st2 = Returned None
  /\ createShell rev sid c r st2
     = (Raised (ErrorObj "Session not found or not connected"), st2)
  /\ resizeShell sid c r st2
     = (Raised (ErrorObj "Session or shell not found"), st2).
Proof.
  intros Ho Hs st1 st2.
  assert (H1 : (createSession sid cfg ssh ;; createShell rev sid c r) st
               = (Returned sh,
                  {| sessions := <[sid := new_session sid ssh sh]> (sessions st);
                     sessionId := sessionId st; readyState := readyState st;
                     wire := wire st;
                     calls := calls st
                              ++ [CConnect (conn ssh) (connect_options cfg);
                                  CRequestShell (conn ssh) c r];
                     console := console st |})).
  { unfold bind, createSession, try_catch, bind, invoke, modify, ret.
    rewrite Ho. simpl.
    unfold createShell, sessions_get, bind, get. simpl.
    rewrite lookup_insert_eq. simpl.
    unfold try_catch, bind, requestShell, modify, ret. rewrite Hs. simpl.
    unfold set_sessions, add_call. simpl.
    rewrite alter_insert_eq, <- app_assoc. reflexivity. }
  assert (Hgone : sessions st2 !! sid = None).
  { subst st2. destruct (closeSession_frame sid st1) as (_ & Hd & _).
    rewrite Hd. apply lookup_delete_eq. }
  subst st1. unfold outcome, exec in *. rewrite H1 in *. simpl in *.
  unfold getSession, createShell, resizeShell, sessions_get, bind, get.
  simpl. rewrite lookup_insert_eq, Hgone. auto.
Qed.

Lemma manager_session_life_witness :
  outcome (getSession "k3x9")
    (exec (createSession "k3x9" sample_config sample_ssh ;;
           createShell Original "k3x9" 80 24) st_idle)
  = Returned (Some sample_session).
Proof.
  pose proof (manager_session_life Original "k3x9" sample_config sample_ssh
                sample_channel 80 24 st_idle eq_refl eq_refl)
    as (_ & Hg & _).
  exact Hg.
Defined.
